(** * mini-ecu-v2: the physical model, the logger and the UART CLI

    A shallow embedding of [vehicle.c], [log.c] and [cli_if.c] (and of the
    telemetry payload documented in [can_if.h]), followed by the properties
    of the runtime core.

    Conventions.
    - C [float] is IEEE-754 binary32: [spec_float] of the standard library
      with a 24-bit significand and [emax = 128], every operation rounded to
      nearest-even (no excess precision, no fused multiply-add).
    - [uint8_t], [uint16_t], [uint32_t] are [Z] with the wrap-around written
      out where the C code can wrap.
    - A [VehicleState_t *] is either [NULL] or the address of the single
      instance the firmware owns; functions taking the pointer are state
      transformers on that instance.
    - UART output is the list of [HAL_UART_Transmit] calls, oldest first. *)

From Stdlib Require Import ZArith Bool List Lia Ascii String.
From Stdlib Require Import Floats.SpecFloat.
From stdpp Require Import base list.

Local Open Scope Z_scope.

(* ===================================================================== *)
(** * Part I: definitions                                                 *)
(* ===================================================================== *)

(** ** IEEE-754 binary32 *)

Module F32.

Definition prec : Z := 24.
Definition emax : Z := 128.

Abbreviation float := spec_float.

Definition nan : float := S754_nan.
Definition zero : float := S754_zero false.

Definition mul : float -> float -> float := SFmul prec emax.
Definition add : float -> float -> float := SFadd prec emax.
Definition sub : float -> float -> float := SFsub prec emax.
Definition div : float -> float -> float := SFdiv prec emax.

(** C's [<], [>], [<=] on floats: false as soon as one side is NaN. *)
Definition ltb : float -> float -> bool := SFltb.
Definition gtb (x y : float) : bool := SFltb y x.
Definition leb : float -> float -> bool := SFleb.

Definition is_nan (x : float) : bool :=
  match x with S754_nan => true | _ => false end.

(** Neither NaN nor infinite. *)
Definition is_finite (x : float) : bool :=
  match x with
  | S754_zero _ | S754_finite _ _ _ => true
  | _ => false
  end.

(** Integer to float conversion (exact below 2^24). *)
Definition of_Z (z : Z) : float := binary_normalize prec emax z 0 false.

(** Truncation toward zero; [None] for NaN and the infinities. *)
Definition trunc (x : float) : option Z :=
  match x with
  | S754_zero _ => Some 0
  | S754_finite s m e => Some (cond_Zopp s (Z.shiftl (Zpos m) e))
  | S754_infinity _ | S754_nan => None
  end.

(** Round to the nearest integer, halves away from zero ([lroundf]). *)
Definition round_half_away (x : float) : option Z :=
  match x with
  | S754_zero _ => Some 0
  | S754_finite s m e =>
      Some (cond_Zopp s (Z.shiftr (Z.shiftl (Zpos m) (e + 1) + 1) 1))
  | S754_infinity _ | S754_nan => None
  end.

(** The float literals of [vehicle.c] and [cli_if.c], as binary32 values. *)
Definition c0_98 : float := S754_finite false 16441672 (-24). (* 0.98f *)
Definition c0_3 : float := S754_finite false 10066330 (-25).  (* 0.3f *)
Definition c0_05 : float := S754_finite false 13421773 (-28). (* 0.05f *)
Definition c0_01 : float := S754_finite false 10737418 (-30). (* 0.01f *)
Definition c10 : float := S754_finite false 10485760 (-20).   (* 10.0f *)
Definition c20 : float := S754_finite false 10485760 (-19).   (* 20.0f *)
Definition c50 : float := S754_finite false 13107200 (-18).   (* 50.0f *)
Definition c90 : float := S754_finite false 11796480 (-17).   (* 90.0f *)
Definition c110 : float := S754_finite false 14417920 (-17).  (* 110.0f *)
Definition c115 : float := S754_finite false 15073280 (-17).  (* 115.0f *)
Definition c200 : float := S754_finite false 13107200 (-16).  (* 200.0f *)
Definition c600 : float := S754_finite false 9830400 (-14).   (* 600.0f *)
Definition c800 : float := S754_finite false 13107200 (-14).  (* 800.0f *)
Definition c6000 : float := S754_finite false 12288000 (-11). (* 6000.0f *)

(** Decimal literal [a/b] rounded once to binary32, used to cross-check the
    constants above. *)
Definition decimal (a b : Z) : float := div (of_Z a) (of_Z b).

End F32.

(** ** What the C library and the target decide

    [cast_u16_undef x] is what [(uint16_t)x] yields when the truncated value
    of [x] does not fit in 16 unsigned bits (undefined in ISO C, fixed by the
    target); [atof] and the [%.1f] conversion of [printf] come from libc. *)

Class Platform := {
  cast_u16_undef : spec_float -> Z;
  atof : list ascii -> spec_float;
  printf_f1 : spec_float -> list ascii
}.

(** ** vehicle.h / vehicle.c *)

Module Vehicle.
Import F32.

Record VehicleState_t := {
  speed_kph : float;      (* float    speed_kph      *)
  engine_rpm : Z;         (* uint16_t engine_rpm     *)
  coolant_temp_c : float  (* float    coolant_temp_c *)
}.

(** A [VehicleState_t *]: [NULL], or the address of the instance. *)
Inductive VehicleState_ptr := NULL | PTR.

(** [static float clamp_f(float v, float min, float max)] *)
Definition clamp_f (v min max : float) : float :=
  if ltb v min then min
  else if gtb v max then max
  else v.

Definition UINT16_MAX : Z := 65535.

(** [(uint16_t)n] for an integer [n]. *)
Definition wrap_u16 (n : Z) : Z := n mod 65536.

(** [(float)r] for a [uint16_t r]. *)
Definition float_of_u16 (r : Z) : float := of_Z r.

Section WithPlatform.
Context {platform : Platform}.

(** [(uint16_t)x] for a float [x]: the truncated value when it fits. *)
Definition u16_of_float (x : float) : Z :=
  match trunc x with
  | Some z =>
      if (0 <=? z) && (z <=? UINT16_MAX) then z
      else wrap_u16 (cast_u16_undef x)
  | None => wrap_u16 (cast_u16_undef x)
  end.

(** The state [Vehicle_Init] writes. *)
Definition init_state : VehicleState_t :=
  {| speed_kph := zero; engine_rpm := 800; coolant_temp_c := of_Z 30 |}.

Definition Vehicle_Init (vs : VehicleState_ptr) (mem : VehicleState_t)
  : VehicleState_t :=
  match vs with
  | NULL => mem
  | PTR => init_state
  end.

(** The body of [Vehicle_Update] past its guard, statement by statement. *)
Definition update_step (s : VehicleState_t) : VehicleState_t :=
  (* vs->speed_kph *= 0.98f; vs->speed_kph = clamp_f(..., 0.0f, 200.0f); *)
  let speed1 := mul (speed_kph s) c0_98 in
  let speed2 := clamp_f speed1 zero c200 in
  (* float target_rpm = 800.0f + (vs->speed_kph * 50.0f); *)
  let target_rpm := add c800 (mul speed2 c50) in
  (* vs->engine_rpm += (uint16_t)((target_rpm - vs->engine_rpm) * 0.3f); *)
  let delta :=
    u16_of_float (mul (sub target_rpm (float_of_u16 (engine_rpm s))) c0_3) in
  let rpm1 := wrap_u16 (engine_rpm s + delta) in
  (* vs->engine_rpm = (uint16_t)clamp_f(vs->engine_rpm, 600.0f, 6000.0f); *)
  let rpm2 := u16_of_float (clamp_f (float_of_u16 rpm1) c600 c6000) in
  (* warm up above 1000 rpm, cool down otherwise *)
  let temp1 :=
    if 1000 <? rpm2
    then add (coolant_temp_c s) (mul (sub c90 (coolant_temp_c s)) c0_05)
    else sub (coolant_temp_c s) c0_01 in
  (* vs->coolant_temp_c = clamp_f(vs->coolant_temp_c, 20.0f, 110.0f); *)
  {| speed_kph := speed2;
     engine_rpm := rpm2;
     coolant_temp_c := clamp_f temp1 c20 c110 |}.

Definition Vehicle_Update (vs : VehicleState_ptr) (dt_s : float)
  (mem : VehicleState_t) : VehicleState_t :=
  match vs with
  | NULL => mem
  | PTR => if leb dt_s zero then mem else update_step mem
  end.

Definition Vehicle_SetTargetSpeed (vs : VehicleState_ptr) (speed : float)
  (mem : VehicleState_t) : VehicleState_t :=
  match vs with
  | NULL => mem
  | PTR =>
      {| speed_kph := clamp_f speed zero c200;
         engine_rpm := engine_rpm mem;
         coolant_temp_c := coolant_temp_c mem |}
  end.

(** [rpm] is a [uint16_t] argument: it is converted to float for [clamp_f]
    and the result converted back. *)
Definition Vehicle_Force (vs : VehicleState_ptr) (speed : float) (rpm : Z)
  (temp_c : float) (mem : VehicleState_t) : VehicleState_t :=
  match vs with
  | NULL => mem
  | PTR =>
      {| speed_kph := clamp_f speed zero c200;
         engine_rpm := u16_of_float (clamp_f (float_of_u16 rpm) c600 c6000);
         coolant_temp_c := clamp_f temp_c c20 c110 |}
  end.

(** A call of the public interface of [vehicle.h], and a sequence of such
    calls on one pointer. *)
Inductive vehicle_call :=
  | CallInit
  | CallUpdate (dt_s : float)
  | CallSetTargetSpeed (speed : float)
  | CallForce (speed : float) (rpm : Z) (temp_c : float).

Definition do_call (vs : VehicleState_ptr) (c : vehicle_call)
  (mem : VehicleState_t) : VehicleState_t :=
  match c with
  | CallInit => Vehicle_Init vs mem
  | CallUpdate dt => Vehicle_Update vs dt mem
  | CallSetTargetSpeed v => Vehicle_SetTargetSpeed vs v mem
  | CallForce s r t => Vehicle_Force vs s r t mem
  end.

Definition run_calls (vs : VehicleState_ptr) (cs : list vehicle_call)
  (mem : VehicleState_t) : VehicleState_t :=
  fold_left (fun m c => do_call vs c m) cs mem.

(** A finite sequence of [Vehicle_Update] calls, one per time step. *)
Fixpoint run_updates (vs : VehicleState_ptr) (dts : list float)
  (mem : VehicleState_t) : VehicleState_t :=
  match dts with
  | [] => mem
  | dt :: rest => run_updates vs rest (Vehicle_Update vs dt mem)
  end.

End WithPlatform.

(** What the rpm clamp computes on integers, and the check that the float
    round trip of [Vehicle_Update] and [Vehicle_Force] agrees with it. *)
Definition clamp_rpm (r : Z) : Z := Z.max 600 (Z.min r 6000).

Definition rpm_clamp_agrees (r : Z) : bool :=
  match trunc (clamp_f (float_of_u16 r) c600 c6000) with
  | Some z => z =? clamp_rpm r
  | None => false
  end.

(** [all_pos n P]: [P] holds of every positive of at most [n + 1] bits. *)
Fixpoint all_pos (n : nat) (P : positive -> bool) : bool :=
  P 1%positive &&
  match n with
  | O => true
  | S k => all_pos k (fun q => P (q~0)%positive)
           && all_pos k (fun q => P (q~1)%positive)
  end.

(** Arguments a caller can pass without injecting a NaN: the float
    arguments of the two setters are numbers (infinities included), the rpm
    argument is a [uint16_t]. The time step is unconstrained. *)
Definition call_has_no_nan (c : vehicle_call) : bool :=
  match c with
  | CallInit | CallUpdate _ => true
  | CallSetTargetSpeed v => negb (is_nan v)
  | CallForce s r t =>
      negb (is_nan s) && negb (is_nan t) && (0 <=? r) && (r <=? UINT16_MAX)
  end.

(** The field invariants of the data model, with C's comparisons. *)
Definition speed_ok (x : float) : bool := leb zero x && leb x c200.
Definition rpm_ok (r : Z) : bool := (600 <=? r) && (r <=? 6000).
Definition temp_ok (x : float) : bool := leb c20 x && leb x c110.

Definition state_ok (s : VehicleState_t) : bool :=
  speed_ok (speed_kph s) && rpm_ok (engine_rpm s) && temp_ok (coolant_temp_c s).

End Vehicle.

(** ** C strings and the UART transmit primitive *)

Module Hal.

Definition NUL : ascii := Ascii.zero.

Definition chars (s : string) : list ascii := list_ascii_of_string s.

Definition code (c : ascii) : Z := Z.of_N (N_of_ascii c).

(** The C string held in a buffer: the bytes before the first NUL (the end
    of the list counts as the terminator). *)
Fixpoint cstr (buf : list ascii) : list ascii :=
  match buf with
  | [] => []
  | c :: rest => if Ascii.eqb c NUL then [] else c :: cstr rest
  end.

Definition strlen (s : list ascii) : Z := Z.of_nat (length (cstr s)).

(** [strncmp(a, b, n)]: difference of the first bytes that differ, as
    unsigned chars; 0 when a NUL is reached on both sides or after [n]
    bytes. *)
Fixpoint strncmp (a b : list ascii) (n : nat) : Z :=
  match n with
  | O => 0
  | S k =>
      let ca := hd NUL a in
      let cb := hd NUL b in
      if Ascii.eqb ca cb
      then if Ascii.eqb ca NUL then 0 else strncmp (tl a) (tl b) k
      else code ca - code cb
  end.

(** [strcmp(a, b)]: [a] is scanned up to its terminator. *)
Definition strcmp (a b : list ascii) : Z := strncmp a b (S (length a)).

(** [UART_HandleTypeDef *]: [None] is [NULL], [Some u] the handle of UART
    [u]. *)
Definition UART_Handle_ptr := option nat.

(** One [HAL_UART_Transmit] call: the UART and the bytes handed to it. *)
Record uart_tx := { tx_uart : nat; tx_bytes : list ascii }.

(** [HAL_UART_Transmit(huart, pData, Size, Timeout)]: the first [Size]
    bytes of [pData] go out on [huart]; the status is ignored by every
    caller. *)
Definition HAL_UART_Transmit (huart : nat) (pData : list ascii) (size : Z)
  (wire : list uart_tx) : list uart_tx :=
  wire ++ [{| tx_uart := huart; tx_bytes := take (Z.to_nat size) pData |}].

(** What [snprintf(buf, size, ...)] leaves in [buf] for an expansion [s]:
    at most [size - 1] bytes of it, then the terminator. *)
Definition snprintf_buf (size : nat) (s : list ascii) : list ascii :=
  take (size - 1) s ++ [NUL].

(** The decimal digits [%u] prints for an unsigned value. *)
Fixpoint utoa_aux (fuel : nat) (n : Z) (acc : list ascii) : list ascii :=
  match fuel with
  | O => acc
  | S k =>
      let acc' := ascii_of_N (Z.to_N (48 + n mod 10)) :: acc in
      if n / 10 =? 0 then acc' else utoa_aux k (n / 10) acc'
  end.

(** A 32-bit [unsigned] has at most ten digits. *)
Definition utoa (n : Z) : list ascii := utoa_aux 10 n [].

(** A minimum field width, as in [%6.1f] or [%5u]: right-justified, padded
    with spaces, never cut. *)
Definition pad_left (width : nat) (s : list ascii) : list ascii :=
  replicate (width - length s) " "%char ++ s.

Definition ESC : ascii := "027"%char.

End Hal.

(** ** log.h / log.c *)

Module Log.
Import Hal.

(** [log_level_t], with the values the enumeration assigns. *)
Definition log_level_t := Z.
Definition LOG_LEVEL_ERROR : log_level_t := 0.
Definition LOG_LEVEL_WARN : log_level_t := 1.
Definition LOG_LEVEL_INFO : log_level_t := 2.
Definition LOG_LEVEL_DEBUG : log_level_t := 3.

(** The file-scope variables of [log.c]. *)
Record log_t := {
  s_logUart : UART_Handle_ptr;
  s_logLevel : log_level_t
}.

(** Their static initialisers. *)
Definition log_initial : log_t :=
  {| s_logUart := None; s_logLevel := LOG_LEVEL_INFO |}.

Definition Log_Init (huart : UART_Handle_ptr) (lg : log_t) : log_t :=
  {| s_logUart := huart; s_logLevel := s_logLevel lg |}.

Definition Log_SetLevel (level : log_level_t) (lg : log_t) : log_t :=
  {| s_logUart := s_logUart lg; s_logLevel := level |}.

Definition Log_GetLevel (lg : log_t) : log_level_t := s_logLevel lg.

(** The [switch] of [Log_Write]. *)
Definition levelChar (level : log_level_t) : ascii :=
  if level =? LOG_LEVEL_ERROR then "E"%char
  else if level =? LOG_LEVEL_WARN then "W"%char
  else if level =? LOG_LEVEL_INFO then "I"%char
  else if level =? LOG_LEVEL_DEBUG then "D"%char
  else "?"%char.

(** The expansion of ["[%c][%s] %s\r\n"]. *)
Definition format_line (lc : ascii) (module msg : list ascii) : list ascii :=
  chars "[" ++ [lc] ++ chars "][" ++ cstr module ++ chars "] " ++ cstr msg
    ++ ["013"%char; "010"%char].

(** [Log_Write(level, module, fmt, ...)].

    [module] is [None] for a NULL tag. [expansion] stands for [fmt] and
    its arguments: [None] when [vsnprintf] reports an error, otherwise the
    complete expansion, which [vsnprintf] cuts to the 128-byte [msgBuf].
    The result is the UART transcript after the call; [log.c]'s own
    variables are only read. *)
Definition Log_Write (lg : log_t) (level : log_level_t)
  (module : option (list ascii)) (expansion : option (list ascii))
  (wire : list uart_tx) : list uart_tx :=
  if s_logLevel lg <? level then wire
  else
    match s_logUart lg with
    | None => wire
    | Some uart =>
        match expansion with
        | None => wire                                  (* n < 0 *)
        | Some full =>
            let msgBuf := snprintf_buf 128 full in
            let module' := match module with
                           | None => chars "GEN"
                           | Some m => m
                           end in
            let out := format_line (levelChar level) module' msgBuf in
            let n := Z.of_nat (length out) in
            let outBuf := snprintf_buf 160 out in
            if n <=? 0 then wire
            else
              let len := if 160 <? n then 160 else n in
              HAL_UART_Transmit uart outBuf len wire
        end
    end.

(** The bytes of the one transmit a record that passes the filter causes:
    the formatted line, or its first 159 bytes and the terminator when it
    does not fit the 160-byte [outBuf]. *)
Definition log_line (level : log_level_t) (module : option (list ascii))
  (full : list ascii) : list ascii :=
  let out := format_line (levelChar level)
               (match module with None => chars "GEN" | Some m => m end)
               (snprintf_buf 128 full) in
  if (length out <? 160)%nat then out else take 159 out ++ [NUL].

End Log.

(** ** can_if.h: the telemetry frame *)

Module Can.
Import F32 Vehicle.

(** A rounding of a float to an integer: the spec says "rounded" without
    fixing the direction, so both readings are kept. *)
Inductive rounding := Truncate | Nearest.

Definition round_with (r : rounding) (x : float) : option Z :=
  match r with
  | Truncate => trunc x
  | Nearest => round_half_away x
  end.

(** The two bytes of a 16-bit value, least significant first. A signed
    value is stored in two's complement. *)
Definition le16 (z : Z) : list Z :=
  let w := z mod 65536 in [Z.land w 255; Z.shiftr w 8].

Record telemetry_frame := {
  StdId : Z;
  DLC : Z;
  Data : list Z
}.

(** Modelled from the spec: [can_if.c], which defines
    [CAN_IF_SendTelemetry], is not among the sources; only its declaration
    in [can_if.h] is. The frame is the one the spec and the header
    describe: identifier 0x100, 6 data bytes, bytes 0-1 the speed scaled by
    10 and rounded to an unsigned 16-bit integer, bytes 2-3 the engine
    speed as an unsigned 16-bit integer, bytes 4-5 the temperature scaled
    by 10 and rounded to a signed 16-bit integer, each little-endian.
    [None] when a scaled value is NaN or infinite, which the spec does not
    cover. *)
Definition telemetry_encode (r : rounding) (vs : VehicleState_t)
  : option telemetry_frame :=
  match round_with r (mul (speed_kph vs) c10),
        round_with r (mul (coolant_temp_c vs) c10) with
  | Some speed10, Some temp10 =>
      Some {| StdId := 256;
              DLC := 6;
              Data := le16 speed10 ++ le16 (engine_rpm vs) ++ le16 temp10 |}
  | _, _ => None
  end.

(** Modelled from the spec: the receive-logging flag of [can_if.c], which
    [CAN_IF_SetLogging] overwrites (logging is enabled by default). *)
Definition can_logging_default : Z := 1.

Definition CAN_IF_SetLogging (enable : Z) (flag : Z) : Z := enable.

End Can.

(** ** cli_if.h / cli_if.c *)

Module Cli.
Import F32 Vehicle Hal Log Can.

Definition CLI_RX_BUF_SIZE : Z := 64.

(** [sizeof(line)] in [cli_handle_char]. *)
Definition LINE_SIZE : Z := 32.

(** The file-scope variables of [cli_if.c] and the two function-local
    statics of [cli_handle_char] ([line], [idx]). *)
Record cli_t := {
  s_cliUart : UART_Handle_ptr;
  s_vehicle : VehicleState_ptr;
  s_rxByte : ascii;
  s_cliBuf : list ascii;     (* uint8_t [CLI_RX_BUF_SIZE] *)
  s_cliHead : Z;             (* volatile uint8_t *)
  s_cliTail : Z;             (* volatile uint8_t *)
  line : list ascii;         (* char [32] *)
  idx : Z                    (* uint8_t *)
}.

(** Their static initialisers. *)
Definition cli_initial : cli_t :=
  {| s_cliUart := None; s_vehicle := NULL; s_rxByte := NUL;
     s_cliBuf := replicate 64 NUL; s_cliHead := 0; s_cliTail := 0;
     line := replicate 32 NUL; idx := 0 |}.

Definition set_ring (buf : list ascii) (head tail : Z) (st : cli_t) : cli_t :=
  {| s_cliUart := s_cliUart st; s_vehicle := s_vehicle st;
     s_rxByte := s_rxByte st;
     s_cliBuf := buf; s_cliHead := head; s_cliTail := tail;
     line := line st; idx := idx st |}.

Definition set_line (l : list ascii) (i : Z) (st : cli_t) : cli_t :=
  {| s_cliUart := s_cliUart st; s_vehicle := s_vehicle st;
     s_rxByte := s_rxByte st;
     s_cliBuf := s_cliBuf st; s_cliHead := s_cliHead st;
     s_cliTail := s_cliTail st;
     line := l; idx := i |}.

(** [static void cli_push(uint8_t c)] *)
Definition cli_push (c : ascii) (st : cli_t) : cli_t :=
  let next := ((s_cliHead st + 1) mod CLI_RX_BUF_SIZE) mod 256 in
  if negb (next =? s_cliTail st)
  then set_ring (<[Z.to_nat (s_cliHead st) := c]> (s_cliBuf st))
                next (s_cliTail st) st
  else st.

(** [static int cli_pop(uint8_t *c)]: the returned triple is the result,
    the byte at [*c] after the call and the new state. *)
Definition cli_pop (c : ascii) (st : cli_t) : Z * ascii * cli_t :=
  if s_cliHead st =? s_cliTail st then (0, c, st)
  else
    let c' := default NUL (s_cliBuf st !! Z.to_nat (s_cliTail st)) in
    let tail' := ((s_cliTail st + 1) mod CLI_RX_BUF_SIZE) mod 256 in
    (1, c', set_ring (s_cliBuf st) (s_cliHead st) tail' st).

(** Everything [cli_handle_char] can read or write. *)
Record ecu_t := {
  cli : cli_t;
  vehicle : VehicleState_t;     (* the instance [s_vehicle] points to *)
  logger : log_t;
  can_logging : Z;
  wire : list uart_tx
}.

Definition with_cli (c : cli_t) (e : ecu_t) : ecu_t :=
  {| cli := c; vehicle := vehicle e; logger := logger e;
     can_logging := can_logging e; wire := wire e |}.

Definition with_vehicle (v : VehicleState_t) (e : ecu_t) : ecu_t :=
  {| cli := cli e; vehicle := v; logger := logger e;
     can_logging := can_logging e; wire := wire e |}.

Definition with_can_logging (f : Z) (e : ecu_t) : ecu_t :=
  {| cli := cli e; vehicle := vehicle e; logger := logger e;
     can_logging := f; wire := wire e |}.

Definition with_wire (w : list uart_tx) (e : ecu_t) : ecu_t :=
  {| cli := cli e; vehicle := vehicle e; logger := logger e;
     can_logging := can_logging e; wire := w |}.

(** [static void cli_uart_print(const char *s)], for a non-NULL [s]. *)
Definition cli_uart_print (s : list ascii) (e : ecu_t) : ecu_t :=
  match s_cliUart (cli e) with
  | None => e
  | Some uart =>
      let len := strlen s in
      if len =? 0 then e
      else with_wire (HAL_UART_Transmit uart s (len mod 65536) (wire e)) e
  end.

(** The [LOG_*] macros as used from [cli_if.c]. *)
Definition log_from_cli (level : log_level_t) (expansion : list ascii)
  (e : ecu_t) : ecu_t :=
  with_wire (Log_Write (logger e) level (Some (chars "CLI"))
               (Some expansion) (wire e)) e.

Definition crlf : list ascii := ["013"%char; "010"%char].

Definition help_text : list ascii :=
  crlf ++ chars "Commands:" ++ crlf
  ++ chars "  help          - show this help" ++ crlf
  ++ chars "  veh speed X   - set target speed to X km/h" ++ crlf
  ++ chars "  veh cool-hot  - inject coolant overheat" ++ crlf
  ++ chars "  log on        - enable CAN RX logging" ++ crlf
  ++ chars "  log off       - disable CAN RX logging" ++ crlf ++ chars "> ".

Definition reply (text : string) : list ascii :=
  crlf ++ chars text ++ crlf ++ chars "> ".

Definition is_eol (c : ascii) : bool :=
  Ascii.eqb c "013"%char || Ascii.eqb c "010"%char.

(** [line] after [text] has been typed from position [i] on. *)
Definition typed_line (l : list ascii) (i : nat) (text : list ascii)
  : list ascii :=
  take i l ++ text ++ drop (i + length text) l.

(** The echo of [text]: one single-byte transmit per byte, if a UART is
    bound. *)
Definition echoes (uart : UART_Handle_ptr) (text : list ascii)
  : list uart_tx :=
  match uart with
  | Some u => map (fun c => {| tx_uart := u; tx_bytes := [c] |}) text
  | None => []
  end.

Section WithPlatform.
Context {platform : Platform}.

(** The command chain of [cli_handle_char], entered with [line]
    terminated and [idx] reset. *)
Definition cli_dispatch (e0 : ecu_t) : ecu_t :=
  let ln := line (cli e0) in
  let e := log_from_cli LOG_LEVEL_DEBUG
             (chars "Command: '" ++ cstr ln ++ chars "'") e0 in
  if (strcmp ln (chars "h") =? 0) || (strcmp ln (chars "help") =? 0) then
    cli_uart_print help_text e
  else if strncmp ln (chars "veh speed ") 10 =? 0 then
    let v := atof (skipn 10 ln) in
    match s_vehicle (cli e) with
    | PTR =>
        let e1 := with_vehicle
                    (Vehicle_SetTargetSpeed PTR v (vehicle e)) e in
        let e2 := log_from_cli LOG_LEVEL_INFO
                    (chars "Set target speed to " ++ printf_f1 v
                       ++ chars " km/h") e1 in
        cli_uart_print (reply "OK: speed updated") e2
    | NULL => cli_uart_print (reply "No vehicle bound to CLI.") e
    end
  else if strcmp ln (chars "veh cool-hot") =? 0 then
    match s_vehicle (cli e) with
    | PTR =>
        let e1 := with_vehicle
                    (Vehicle_Force PTR (speed_kph (vehicle e))
                       (engine_rpm (vehicle e)) c115 (vehicle e)) e in
        let e2 := log_from_cli LOG_LEVEL_WARN
                    (chars "Injected coolant overheat") e1 in
        cli_uart_print (reply "Injected: coolant overheat") e2
    | NULL => cli_uart_print (reply "No vehicle bound to CLI.") e
    end
  else if strcmp ln (chars "log on") =? 0 then
    let e1 := with_can_logging (CAN_IF_SetLogging 1 (can_logging e)) e in
    let e2 := log_from_cli LOG_LEVEL_INFO (chars "CAN RX logging enabled") e1 in
    cli_uart_print (reply "CAN RX logging: ON") e2
  else if strcmp ln (chars "log off") =? 0 then
    let e1 := with_can_logging (CAN_IF_SetLogging 0 (can_logging e)) e in
    let e2 := log_from_cli LOG_LEVEL_INFO (chars "CAN RX logging disabled") e1 in
    cli_uart_print (reply "CAN RX logging: OFF") e2
  else
    cli_uart_print (reply "Unknown command. Try 'help'.") e.

(** [static void cli_handle_char(uint8_t c)] *)
Definition cli_handle_char (c : ascii) (e : ecu_t) : ecu_t :=
  let st := cli e in
  if is_eol c then
    if idx st =? 0 then cli_uart_print (crlf ++ chars "> ") e
    else
      (* line[idx] = '\0'; idx = 0U; *)
      let st' := set_line (<[Z.to_nat (idx st) := NUL]> (line st)) 0 st in
      cli_dispatch (with_cli st' e)
  else if idx st <? LINE_SIZE - 1 then
    (* line[idx++] = (char)c; *)
    let st' := set_line (<[Z.to_nat (idx st) := c]> (line st))
                 ((idx st + 1) mod 256) st in
    let e' := with_cli st' e in
    match s_cliUart st with
    | Some uart => with_wire (HAL_UART_Transmit uart [c] 1 (wire e')) e'
    | None => e'
    end
  else e.

(** The bytes of a text fed to [cli_handle_char] one after the other. *)
Definition feed (text : list ascii) (e : ecu_t) : ecu_t :=
  fold_left (fun acc c => cli_handle_char c acc) text e.

End WithPlatform.

Section Task.
Context {platform : Platform}.

(** The expansion of the dashboard format
    ["SPD: %6.1f km/h | RPM: %5u | TEMP: %5.1f C   "]. *)
Definition dashboard_text (v : VehicleState_t) : list ascii :=
  chars "SPD: " ++ pad_left 6 (printf_f1 (speed_kph v))
  ++ chars " km/h | RPM: " ++ pad_left 5 (utoa (engine_rpm v))
  ++ chars " | TEMP: " ++ pad_left 5 (printf_f1 (coolant_temp_c v))
  ++ chars " C   ".

(** [static void cli_update_dashboard(void)] *)
Definition cli_update_dashboard (e : ecu_t) : ecu_t :=
  match s_cliUart (cli e), s_vehicle (cli e) with
  | Some _, PTR =>
      let buf := snprintf_buf 128 (dashboard_text (vehicle e)) in
      let e1 := cli_uart_print (ESC :: chars "[s") e in   (* save cursor *)
      let e2 := cli_uart_print (ESC :: chars "[H") e1 in  (* top-left *)
      let e3 := cli_uart_print buf e2 in
      let e4 := cli_uart_print (ESC :: chars "[K") e3 in  (* clear to eol *)
      cli_uart_print (ESC :: chars "[u") e4               (* restore *)
  | _, _ => e
  end.

(** [void CLI_IF_Init(UART_HandleTypeDef *huart, VehicleState_t *vehicle)].
    [HAL_UART_Receive_IT] only arms the receiver. *)
Definition CLI_IF_Init (huart : UART_Handle_ptr) (vehicle_ptr : VehicleState_ptr)
  (e : ecu_t) : ecu_t :=
  let st := {| s_cliUart := huart; s_vehicle := vehicle_ptr;
               s_rxByte := s_rxByte (cli e);
               s_cliBuf := s_cliBuf (cli e); s_cliHead := 0; s_cliTail := 0;
               line := line (cli e); idx := idx (cli e) |} in
  let e1 := with_cli st e in
  match huart with
  | None => e1
  | Some _ =>
      let e2 := cli_uart_print (ESC :: chars "[2J" ++ ESC :: chars "[H") e1 in
      let e3 := cli_update_dashboard e2 in
      let e4 := cli_uart_print
                  (crlf ++ chars "CLI ready. Type 'help' and press Enter."
                     ++ crlf ++ chars "> ") e3 in
      log_from_cli LOG_LEVEL_INFO (chars "CLI initialized") e4
  end.

(** The loop [while (cli_pop(&c)) cli_handle_char(c);] of [CLI_IF_Task],
    with [c] the local byte. [None] when [fuel] iterations did not reach an
    empty buffer. *)
Fixpoint drain (fuel : nat) (c : ascii) (e : ecu_t) : option ecu_t :=
  match fuel with
  | O => None
  | S k =>
      let '(r, c', st') := cli_pop c (cli e) in
      if r =? 0 then Some e
      else drain k c' (cli_handle_char c' (with_cli st' e))
  end.

(** [void CLI_IF_Task(void)], with its static [dashCounter] passed in and
    returned. The loop gets one iteration per slot of the array and one
    more to see the buffer empty. *)
Definition CLI_IF_Task (dashCounter : Z) (c : ascii) (e : ecu_t)
  : option (Z * ecu_t) :=
  match drain 65 c e with
  | None => None
  | Some e1 =>
      let d := (dashCounter + 1) mod 4294967296 in
      if 50 <=? d then Some (0, cli_update_dashboard e1) else Some (d, e1)
  end.

End Task.

(** The ring buffer fields replaced, everything else kept. *)
Definition with_ring (buf : list ascii) (head tail : Z) (e : ecu_t) : ecu_t :=
  with_cli (set_ring buf head tail (cli e)) e.

(** A byte arrives on the CLI UART: the hardware stores it in [s_rxByte]
    and the receive-complete interrupt runs. *)
Definition set_rxByte (c : ascii) (st : cli_t) : cli_t :=
  {| s_cliUart := s_cliUart st; s_vehicle := s_vehicle st; s_rxByte := c;
     s_cliBuf := s_cliBuf st; s_cliHead := s_cliHead st;
     s_cliTail := s_cliTail st; line := line st; idx := idx st |}.

(** [HAL_UART_RxCpltCallback], as far as [cli_if.c]'s own state goes:
    the received byte is queued when the interrupt is the CLI UART's. *)
Definition HAL_UART_RxCpltCallback (huart : UART_Handle_ptr) (st : cli_t)
  : cli_t :=
  if bool_decide (huart = s_cliUart st) then cli_push (s_rxByte st) st else st.

Definition receive (c : ascii) (st : cli_t) : cli_t :=
  HAL_UART_RxCpltCallback (s_cliUart st) (set_rxByte c st).

(** A burst of bytes arriving before the task runs. *)
Definition receive_all (bytes : list ascii) (st : cli_t) : cli_t :=
  fold_left (fun s c => receive c s) bytes st.

(** *** The ring buffer seen from outside *)

Inductive rb_op := Push (c : ascii) | Pop.

Definition rb_step (st : cli_t) (op : rb_op) : cli_t :=
  match op with
  | Push c => cli_push c st
  | Pop => snd (cli_pop NUL st)
  end.

Definition rb_run (ops : list rb_op) (st : cli_t) : cli_t :=
  fold_left rb_step ops st.

(** Unread bytes: [(head - tail) mod 64]. *)
Definition pending (st : cli_t) : Z :=
  (s_cliHead st - s_cliTail st) mod CLI_RX_BUF_SIZE.

(** Whether [cli_push] stored its byte. *)
Definition push_succeeds (st : cli_t) : bool :=
  negb (((s_cliHead st + 1) mod CLI_RX_BUF_SIZE) mod 256 =? s_cliTail st).

(** The unread bytes, oldest first: the slots from [tail] up to [head]. *)
Definition slot (st : cli_t) (k : nat) : ascii :=
  default NUL
    (s_cliBuf st !! Z.to_nat ((s_cliTail st + Z.of_nat k) mod CLI_RX_BUF_SIZE)).

Definition unread (st : cli_t) : list ascii :=
  map (slot st) (seq 0 (Z.to_nat (pending st))).

(** A first-in first-out queue of at most 63 bytes that drops on overflow:
    what the ring buffer is meant to be. *)
Definition fifo_step (q : list ascii) (op : rb_op) : list ascii :=
  match op with
  | Push c => if (length q <? 63)%nat then q ++ [c] else q
  | Pop => tl q
  end.

(** Both indices inside the array, which [CLI_IF_Init] and the two
    operations maintain. *)
Definition indices_ok (st : cli_t) : Prop :=
  0 <= s_cliHead st < CLI_RX_BUF_SIZE /\ 0 <= s_cliTail st < CLI_RX_BUF_SIZE.

(** The array has its declared size. *)
Definition ring_ok (st : cli_t) : Prop :=
  indices_ok st /\ length (s_cliBuf st) = 64%nat.

End Cli.

(** ** bootloader/main.c: the boot decision *)

Module Boot.
Import Hal.

(** [APP_START_ADDR] comes from [main.h], which is not among the sources;
    the header comment of [main.c] gives its value, 0x08008000. *)
Definition APP_START_ADDR : Z := 134250496.

Definition SRAM_BASE : Z := 536870912.      (* 0x20000000U *)
Definition SRAM_STACK_TOP : Z := 537001984. (* 0x20020000U *)

(** The registers [JumpToApplication] writes. *)
Record core_regs := {
  SysTick_CTRL : Z;
  SysTick_LOAD : Z;
  SysTick_VAL : Z;
  NVIC_ICER : list Z;   (* uint32_t [8] *)
  NVIC_ICPR : list Z;   (* uint32_t [8] *)
  SCB_VTOR : Z;
  MSP : Z
}.

(** The loop [for (i = 0; i < 8; ++i) { ICER[i] = ...; ICPR[i] = ...; }]. *)
Fixpoint disable_irqs (n : nat) (i : nat) (r : core_regs) : core_regs :=
  match n with
  | O => r
  | S k =>
      disable_irqs k (S i)
        {| SysTick_CTRL := SysTick_CTRL r; SysTick_LOAD := SysTick_LOAD r;
           SysTick_VAL := SysTick_VAL r;
           NVIC_ICER := <[i := 4294967295]> (NVIC_ICER r);
           NVIC_ICPR := <[i := 4294967295]> (NVIC_ICPR r);
           SCB_VTOR := SCB_VTOR r; MSP := MSP r |}
  end.

(** [static void JumpToApplication(void)], given the first two words of the
    application image: [None] when it returns without jumping, otherwise
    the registers at the jump and the address called. *)
Definition JumpToApplication (appStack appReset : Z) (r : core_regs)
  : option (core_regs * Z) :=
  if (appStack <? SRAM_BASE) || (SRAM_STACK_TOP <? appStack) then None
  else
    let r1 := {| SysTick_CTRL := 0; SysTick_LOAD := 0; SysTick_VAL := 0;
                 NVIC_ICER := NVIC_ICER r; NVIC_ICPR := NVIC_ICPR r;
                 SCB_VTOR := SCB_VTOR r; MSP := MSP r |} in
    let r2 := disable_irqs 8 0 r1 in
    Some ({| SysTick_CTRL := SysTick_CTRL r2; SysTick_LOAD := SysTick_LOAD r2;
             SysTick_VAL := SysTick_VAL r2;
             NVIC_ICER := NVIC_ICER r2; NVIC_ICPR := NVIC_ICPR r2;
             SCB_VTOR := APP_START_ADDR; MSP := appStack |}, appReset).

(** [static void Boot_Print(const char *msg)], for a non-NULL [msg]; the
    bootloader's UART is USART2. *)
Definition Boot_Print (msg : list ascii) (wire : list uart_tx)
  : list uart_tx :=
  let len := strlen msg in
  if len =? 0 then wire
  else HAL_UART_Transmit 2%nat msg (len mod 65536) wire.

(** Where [main] ends up: in one of its two blink loops, or in the
    application. What the application does once called, a return from it
    included, is outside the model, as are the peripherals [HAL_RCC_DeInit]
    and [HAL_DeInit] reset. *)
Inductive boot_outcome :=
  | StayInBootloader                       (* B1 held: toggle LD2 every 300 ms *)
  | RunApplication (r : core_regs) (entry : Z)
  | ErrorLoop.                             (* toggle LD2 every 500 ms *)

Definition eol : list ascii := ["013"%char; "010"%char].

(** [int main(void)] past the peripheral set-up: [b1_pressed] is what
    [Boot_IsButtonPressed] returns, [appStack] and [appReset] the two words
    at [APP_START_ADDR]. The result is the outcome and what was printed. *)
Definition main (b1_pressed : bool) (appStack appReset : Z) (r : core_regs)
  : boot_outcome * list uart_tx :=
  let w1 := Boot_Print (eol ++ chars "[BOOT] Mini ECU v2 bootloader" ++ eol) [] in
  let w2 := Boot_Print
              (chars "[BOOT] Hold B1 during reset to stay in bootloader." ++ eol)
              w1 in
  if b1_pressed then
    let w3 := Boot_Print
                (chars "[BOOT] B1 is pressed: staying in bootloader." ++ eol)
                w2 in
    let w4 := Boot_Print
                (chars "[BOOT] (Future) OTA / firmware update mode." ++ eol)
                w3 in
    (StayInBootloader, w4)
  else
    let w3 := Boot_Print
                (chars "[BOOT] B1 not pressed: attempting to jump to application..."
                   ++ eol) w2 in
    match JumpToApplication appStack appReset r with
    | Some (r', entry) => (RunApplication r' entry, w3)
    | None =>
        (ErrorLoop,
         Boot_Print
           (chars "[BOOT] No valid application found. Staying in error loop."
              ++ eol) w3)
    end.

End Boot.

(** ** A reference platform, to run the model on concrete inputs

    Cortex-M4 conventions for the conversion ([VCVT.U32.F32] saturates:
    NaN and negatives give 0, large values the maximum), a small decimal
    reader for [atof] (sign, digits, optional fraction, the word [nan];
    anything else reads as 0.0, like [atof] on non-numeric text) and
    round-half-even for [%.1f]. *)

Module Reference.
Import F32 Hal.

Definition sat_u32 (x : float) : Z :=
  match x with
  | S754_nan => 0
  | S754_infinity s => if s then 0 else 4294967295
  | S754_zero _ => 0
  | S754_finite s m e =>
      if s then 0 else Z.min 4294967295 (Z.shiftl (Zpos m) e)
  end.

Definition digit_of (c : ascii) : option Z :=
  let n := code c in
  if (48 <=? n) && (n <=? 57) then Some (n - 48) else None.

(** Reads digits into [acc]; returns the number read, the count of digits
    and the rest of the text. *)
Fixpoint read_digits (s : list ascii) (acc : Z) (count : Z)
  : Z * Z * list ascii :=
  match s with
  | [] => (acc, count, [])
  | c :: rest =>
      match digit_of c with
      | Some d => read_digits rest (10 * acc + d) (count + 1)
      | None => (acc, count, s)
      end
  end.

Definition read_unsigned (s : list ascii) : float :=
  let '(ip, _, rest) := read_digits s 0 0 in
  match rest with
  | "."%char :: frac =>
      let '(num, k, _) := read_digits frac ip 0 in
      div (of_Z num) (of_Z (10 ^ k))
  | _ => of_Z ip
  end.

Definition ref_atof (s : list ascii) : float :=
  match s with
  | "n"%char :: "a"%char :: "n"%char :: _ => nan
  | "-"%char :: rest => SFopp (read_unsigned rest)
  | "+"%char :: rest => read_unsigned rest
  | _ => read_unsigned s
  end.

Fixpoint digits_of (fuel : nat) (n : Z) (acc : list ascii) : list ascii :=
  match fuel with
  | O => acc
  | S k =>
      let acc' := ascii_of_N (Z.to_N (48 + n mod 10)) :: acc in
      if n / 10 =? 0 then acc' else digits_of k (n / 10) acc'
  end.

Definition decimal_digits (n : Z) : list ascii := digits_of 64 n [].

(** Tenths of [m * 2^e], rounded half to even. *)
Definition tenths (m : positive) (e : Z) : Z :=
  if 0 <=? e then Z.shiftl (10 * Zpos m) e
  else
    let d := 2 ^ (- e) in
    let q := (10 * Zpos m) / d in
    let r := (10 * Zpos m) mod d in
    match Z.compare (2 * r) d with
    | Lt => q
    | Gt => q + 1
    | Eq => if Z.even q then q else q + 1
    end.

Definition ref_printf_f1 (x : float) : list ascii :=
  match x with
  | S754_nan => chars "nan"
  | S754_infinity s => (if s then chars "-" else []) ++ chars "inf"
  | S754_zero s => (if s then chars "-" else []) ++ chars "0.0"
  | S754_finite s m e =>
      let t := tenths m e in
      (if s then chars "-" else [])
        ++ decimal_digits (t / 10) ++ chars "." ++ decimal_digits (t mod 10)
  end.

#[export] Instance ref_platform : Platform :=
  {| cast_u16_undef := sat_u32;
     atof := ref_atof;
     printf_f1 := ref_printf_f1 |}.

End Reference.

(** ** Sample inputs *)

Module Samples.
Import F32 Vehicle Hal Log Can Cli.

(** 100 km/h, 3000 rpm, 50 degrees. *)
Definition cruising : VehicleState_t :=
  {| speed_kph := of_Z 100; engine_rpm := 3000; coolant_temp_c := of_Z 50 |}.

(** The 10 ms tick, [0.01f]. *)
Definition tick : float := c0_01.

(** The known state of the telemetry example: 25.0 km/h, 2000 rpm, 85.0
    degrees. *)
Definition known_state : VehicleState_t :=
  {| speed_kph := of_Z 25; engine_rpm := 2000; coolant_temp_c := of_Z 85 |}.

Definition CR : ascii := "013"%char.
Definition LF : ascii := "010"%char.

(** The CLI after [CLI_IF_Init(&huart2, &vehicle)]: UART 2 and the vehicle
    bound, everything else as initialised. *)
Definition cli_bound : cli_t :=
  {| s_cliUart := Some 2%nat; s_vehicle := PTR; s_rxByte := NUL;
     s_cliBuf := replicate 64 NUL; s_cliHead := 0; s_cliTail := 0;
     line := replicate 32 NUL; idx := 0 |}.

(** The logger on the same UART at its default level. *)
Definition log_bound : log_t :=
  {| s_logUart := Some 2%nat; s_logLevel := LOG_LEVEL_INFO |}.

Definition ecu_cruising : ecu_t :=
  {| cli := cli_bound; vehicle := cruising; logger := log_bound;
     can_logging := can_logging_default; wire := [] |}.

(** The same, with the command line accumulator filled to capacity. *)
Definition ecu_line_full : ecu_t :=
  with_cli (set_line (replicate 31 "a"%char ++ [NUL]) 31 cli_bound)
    ecu_cruising.

(** 63 bytes queued and none read: the ring buffer is full. *)
Definition ring_full : cli_t :=
  set_ring (replicate 63 "x"%char ++ [NUL]) 63 0 cli_bound.

(** A state no sequence of valid calls produces: NaN speed and
    temperature, rpm 0. *)
Definition corrupted : VehicleState_t :=
  {| speed_kph := nan; engine_rpm := 0; coolant_temp_c := nan |}.

(** The CLI with "h" and a carriage return received and not yet read. *)
Definition ecu_pending : ecu_t :=
  with_cli (rb_run [Push "h"%char; Push CR] cli_bound) ecu_cruising.

(** A 200-byte log message and a 30-byte module tag. *)
Definition long_message : list ascii := replicate 200 "a"%char.
Definition long_tag : list ascii := replicate 30 "M"%char.

(** The core registers at reset, as far as the bootloader writes them. *)
Definition regs_at_reset : Boot.core_regs :=
  {| Boot.SysTick_CTRL := 7; Boot.SysTick_LOAD := 15999; Boot.SysTick_VAL := 42;
     Boot.NVIC_ICER := replicate 8 0; Boot.NVIC_ICPR := replicate 8 0;
     Boot.SCB_VTOR := 134217728; Boot.MSP := 537001984 |}.

End Samples.

(* ===================================================================== *)
(** * Part II: properties                                                 *)
(* ===================================================================== *)

Import F32 Vehicle Hal Log Can Cli Reference Samples.

(** ** binary32: the literals, the order, and where NaN can come from *)

Lemma literals_are_rounded_decimals :
  c0_98 = decimal 98 100 /\ c0_3 = decimal 3 10 /\
  c0_05 = decimal 5 100 /\ c0_01 = decimal 1 100.
Proof. repeat split; vm_compute; reflexivity. Qed.

Lemma literals_are_integers :
  c10 = of_Z 10 /\ c20 = of_Z 20 /\ c50 = of_Z 50 /\ c90 = of_Z 90 /\
  c110 = of_Z 110 /\ c115 = of_Z 115 /\ c200 = of_Z 200 /\
  c600 = of_Z 600 /\ c800 = of_Z 800 /\ c6000 = of_Z 6000.
Proof. repeat split; vm_compute; reflexivity. Qed.

Lemma literals_valid :
  forallb (valid_binary prec emax)
    [c0_98; c0_3; c0_05; c0_01; c10; c20; c50; c90; c110; c115; c200;
     c600; c800; c6000] = true.
Proof. vm_compute; reflexivity. Qed.

Lemma compare_cont_Eq_opp (p q : positive) :
  Pos.compare_cont Eq q p = CompOpp (Pos.compare_cont Eq p q).
Proof. exact (Pos.compare_antisym p q). Qed.

Lemma SFcompare_antisym (x y : float) (c : comparison) :
  SFcompare x y = Some c -> SFcompare y x = Some (CompOpp c).
Proof.
  destruct x as [sx|sx| |sx mx ex], y as [sy|sy| |sy my ey]; simpl;
    try discriminate;
    try (destruct sx; intros [= <-]; reflexivity);
    try (destruct sy; intros [= <-]; reflexivity).
  - destruct sx, sy; intros [= <-]; reflexivity.
  - destruct sx, sy; intros [= <-]; try reflexivity;
      rewrite (Z.compare_antisym ex ey), compare_cont_Eq_opp;
      destruct (ex ?= ey); simpl; try reflexivity;
      destruct (Pos.compare_cont Eq mx my); reflexivity.
Qed.

Lemma SFcompare_defined (x y : float) :
  is_nan x = false -> is_nan y = false -> exists c, SFcompare x y = Some c.
Proof.
  destruct x, y; simpl; try discriminate; intros _ _; eexists; reflexivity.
Qed.

(** When [x < y] is false and neither is NaN, [y <= x]. *)
Lemma ltb_false_leb (x y : float) :
  is_nan x = false -> is_nan y = false -> ltb x y = false -> leb y x = true.
Proof.
  intros Hx Hy. destruct (SFcompare_defined x y Hx Hy) as [c Hc].
  unfold ltb, leb, SFltb, SFleb.
  rewrite Hc, (SFcompare_antisym _ _ _ Hc).
  destruct c; simpl; congruence.
Qed.

Lemma leb_true_ltb_false (x y : float) : leb x y = true -> ltb y x = false.
Proof.
  unfold ltb, leb, SFltb, SFleb. destruct (SFcompare x y) as [c|] eqn:Hc;
    [|discriminate].
  rewrite (SFcompare_antisym _ _ _ Hc). destruct c; simpl; congruence.
Qed.

Lemma leb_not_nan (x y : float) :
  leb x y = true -> is_nan x = false /\ is_nan y = false.
Proof. destruct x, y; simpl; try discriminate; auto. Qed.

(** Shifting and rounding keep a significand non-negative, so rounding a
    non-negative significand never falls into the NaN branch. *)
Lemma shr_1_nonneg (mrs : shr_record) :
  0 <= shr_m mrs -> 0 <= shr_m (shr_1 mrs).
Proof.
  destruct mrs as [m r s]; simpl. destruct m as [|p|p]; simpl; [lia| |lia].
  destruct p; simpl; lia.
Qed.

Lemma iter_pos_invariant {A} (P : A -> Prop) (f : A -> A) :
  (forall a, P a -> P (f a)) -> forall n a, P a -> P (SpecFloat.iter_pos f n a).
Proof.
  intros Hf n. induction n as [n IH|n IH|]; simpl; intros a Ha; auto.
Qed.

Lemma shr_nonneg (mrs : shr_record) (e n : Z) :
  0 <= shr_m mrs -> 0 <= shr_m (fst (shr mrs e n)).
Proof.
  intros H. destruct n; simpl; auto.
  apply (iter_pos_invariant (fun r => 0 <= shr_m r)); auto using shr_1_nonneg.
Qed.

Lemma shr_fexp_nonneg (m e : Z) (l : location) :
  0 <= m -> 0 <= shr_m (fst (shr_fexp prec emax m e l)).
Proof.
  intros H. unfold shr_fexp. apply shr_nonneg.
  destruct l as [|[]]; simpl; exact H.
Qed.

Lemma round_nearest_even_nonneg (m : Z) (l : location) :
  0 <= m -> 0 <= round_nearest_even m l.
Proof.
  intros H. destruct l as [|[]]; simpl; try lia. destruct (Z.even m); lia.
Qed.

Lemma binary_round_aux_not_nan (sx : bool) (mx ex : Z) (lx : location) :
  0 <= mx -> is_nan (binary_round_aux prec emax sx mx ex lx) = false.
Proof.
  intros H. unfold binary_round_aux.
  pose proof (shr_fexp_nonneg mx ex lx H) as H1.
  destruct (shr_fexp prec emax mx ex lx) as [mrs' e']; simpl in H1.
  pose proof (shr_fexp_nonneg
                (round_nearest_even (shr_m mrs') (loc_of_shr_record mrs'))
                e' loc_Exact (round_nearest_even_nonneg _ _ H1)) as H2.
  destruct (shr_fexp prec emax _ e' loc_Exact) as [mrs'' e'']; simpl in H2.
  destruct (shr_m mrs'') as [|m|m]; simpl; [reflexivity| |lia].
  destruct (e'' <=? emax - prec); reflexivity.
Qed.

Lemma binary_normalize_not_nan (m e : Z) (sz : bool) :
  is_nan (binary_normalize prec emax m e sz) = false.
Proof.
  destruct m as [|p|p]; simpl; [reflexivity| |];
    unfold binary_round;
    destruct (shl_align p e _) as [mz ez];
    apply binary_round_aux_not_nan; lia.
Qed.

Lemma of_Z_not_nan (z : Z) : is_nan (of_Z z) = false.
Proof. apply binary_normalize_not_nan. Qed.

(** Multiplying by a non-zero finite constant never creates a NaN. *)
Lemma mul_finite_not_nan (x : float) (s : bool) (m : positive) (e : Z) :
  is_nan x = false -> is_nan (mul x (S754_finite s m e)) = false.
Proof.
  destruct x as [sx|sx| |sx mx ex]; simpl; try discriminate; intros _;
    try reflexivity.
  apply binary_round_aux_not_nan; lia.
Qed.

Lemma add_finite_not_nan (x y : float) :
  is_finite x = true -> is_nan y = false -> is_nan (add x y) = false.
Proof.
  destruct x as [sx|sx| |sx mx ex], y as [sy|sy| |sy my ey]; simpl;
    try discriminate; intros _ _; try reflexivity.
  - destruct sx, sy; reflexivity.
  - apply binary_normalize_not_nan.
Qed.

Lemma sub_finite_not_nan (x y : float) :
  is_finite x = true -> is_nan y = false -> is_nan (sub x y) = false.
Proof.
  destruct x as [sx|sx| |sx mx ex], y as [sy|sy| |sy my ey]; simpl;
    try discriminate; intros _ _; try reflexivity.
  - destruct sx, sy; reflexivity.
  - apply binary_normalize_not_nan.
Qed.

(** ** vehicle.c: clamping *)

Lemma SFcompare_refl (x : float) : is_nan x = false -> SFcompare x x = Some Eq.
Proof.
  destruct x as [s|s| |s m e]; simpl; try discriminate; intros _;
    try (destruct s; reflexivity).
  destruct s; rewrite Z.compare_refl, Pos.compare_cont_refl; reflexivity.
Qed.

Lemma leb_refl (x : float) : is_nan x = false -> leb x x = true.
Proof. intros H. unfold leb, SFleb. rewrite (SFcompare_refl x H). reflexivity. Qed.

Lemma ltb_irrefl (x : float) : ltb x x = false.
Proof.
  destruct (is_nan x) eqn:H.
  - destruct x; try discriminate; reflexivity.
  - unfold ltb, SFltb. rewrite (SFcompare_refl x H). reflexivity.
Qed.

(** A clamped value lies between the bounds, unless it is NaN. *)
Lemma clamp_f_bounds (v lo hi : float) :
  is_nan v = false -> leb lo hi = true ->
  leb lo (clamp_f v lo hi) = true /\ leb (clamp_f v lo hi) hi = true.
Proof.
  intros Hv Hlh. destruct (leb_not_nan _ _ Hlh) as [Hlo Hhi].
  unfold clamp_f, gtb.
  destruct (ltb v lo) eqn:H1; [auto using leb_refl|].
  destruct (SFltb hi v) eqn:H2; [auto using leb_refl|].
  split; apply ltb_false_leb; assumption.
Qed.

(** A value already between the bounds is returned as it is. *)
Lemma clamp_f_id (v lo hi : float) :
  leb lo v = true -> leb v hi = true -> clamp_f v lo hi = v.
Proof.
  intros H1 H2. unfold clamp_f, gtb.
  rewrite (leb_true_ltb_false _ _ H1).
  change (SFltb hi v) with (ltb hi v).
  rewrite (leb_true_ltb_false _ _ H2). reflexivity.
Qed.

(** NaN goes through [clamp_f] untouched: both comparisons are false. *)
Lemma clamp_f_nan (lo hi : float) : clamp_f nan lo hi = nan.
Proof. unfold clamp_f, gtb, ltb, SFltb. destruct lo, hi; reflexivity. Qed.

(** Clamping is a projection, NaN included. *)
Lemma clamp_f_idem (v lo hi : float) :
  leb lo hi = true ->
  clamp_f (clamp_f v lo hi) lo hi = clamp_f v lo hi.
Proof.
  intros Hlh.
  assert (Hl : clamp_f lo lo hi = lo).
  { unfold clamp_f, gtb. rewrite ltb_irrefl.
    change (SFltb hi lo) with (ltb hi lo).
    rewrite (leb_true_ltb_false _ _ Hlh). reflexivity. }
  assert (Hh : clamp_f hi lo hi = hi).
  { unfold clamp_f, gtb. rewrite (leb_true_ltb_false _ _ Hlh).
    change (SFltb hi hi) with (ltb hi hi). rewrite ltb_irrefl. reflexivity. }
  destruct (ltb v lo) eqn:H1.
  { replace (clamp_f v lo hi) with lo
      by (unfold clamp_f; rewrite H1; reflexivity). exact Hl. }
  destruct (gtb v hi) eqn:H2.
  { replace (clamp_f v lo hi) with hi
      by (unfold clamp_f; rewrite H1, H2; reflexivity). exact Hh. }
  replace (clamp_f v lo hi) with v
    by (unfold clamp_f; rewrite H1, H2; reflexivity).
  unfold clamp_f; rewrite H1, H2; reflexivity.
Qed.

Lemma all_pos_spec (n : nat) :
  forall (P : positive -> bool), all_pos n P = true ->
  forall q : positive, (Pos.size_nat q <= S n)%nat -> P q = true.
Proof.
  induction n as [|k IH]; simpl; intros P H q Hq.
  - apply andb_true_iff in H as [H _].
    destruct q; simpl in Hq; try (destruct q; simpl in Hq; lia). exact H.
  - apply andb_true_iff in H as [H1 H]. apply andb_true_iff in H as [H2 H3].
    destruct q as [q|q|]; simpl in Hq.
    + apply (IH (fun q => P (q~1)%positive) H3). lia.
    + apply (IH (fun q => P (q~0)%positive) H2). lia.
    + exact H1.
Qed.

Lemma size_nat_bound (q : positive) :
  forall n : nat, Zpos q < 2 ^ Z.of_nat n -> (Pos.size_nat q <= n)%nat.
Proof.
  induction q as [q IH|q IH|]; intros n H; simpl.
  - destruct n as [|k]; [simpl in H; lia|].
    rewrite Nat2Z.inj_succ, Z.pow_succ_r in H by lia.
    specialize (IH k). lia.
  - destruct n as [|k]; [simpl in H; lia|].
    rewrite Nat2Z.inj_succ, Z.pow_succ_r in H by lia.
    specialize (IH k). lia.
  - destruct n as [|k]; [simpl in H; lia|lia].
Qed.

Lemma rpm_clamp_agrees_u16 : all_pos 15 (fun q => rpm_clamp_agrees (Zpos q)) = true.
Proof. vm_compute. reflexivity. Qed.

Lemma rpm_clamp_agrees_all (r : Z) :
  0 <= r <= UINT16_MAX -> rpm_clamp_agrees r = true.
Proof.
  unfold UINT16_MAX. intros H. destruct r as [|q|q]; [vm_compute; reflexivity| |lia].
  apply (all_pos_spec 15 _ rpm_clamp_agrees_u16 q).
  apply (size_nat_bound q 16). simpl. lia.
Qed.

Lemma clamp_rpm_range (r : Z) : 600 <= clamp_rpm r <= 6000.
Proof. unfold clamp_rpm. lia. Qed.

Section VehicleFacts.
Context {platform : Platform}.

(** The rpm clamp, through float and back, is the integer clamp. *)
Lemma rpm_clamp_exact (r : Z) :
  0 <= r <= UINT16_MAX ->
  u16_of_float (clamp_f (float_of_u16 r) c600 c6000) = clamp_rpm r.
Proof.
  intros H. pose proof (rpm_clamp_agrees_all r H) as Hc.
  unfold rpm_clamp_agrees in Hc. unfold u16_of_float.
  destruct (trunc _) as [z|]; [|discriminate].
  apply Z.eqb_eq in Hc. subst z.
  pose proof (clamp_rpm_range r) as Hr. unfold UINT16_MAX.
  destruct (0 <=? clamp_rpm r) eqn:E1; [|apply Z.leb_gt in E1; lia].
  destruct (clamp_rpm r <=? 65535) eqn:E2; [|apply Z.leb_gt in E2; lia].
  reflexivity.
Qed.

Lemma wrap_u16_range (n : Z) : 0 <= wrap_u16 n <= UINT16_MAX.
Proof. unfold wrap_u16, UINT16_MAX. pose proof (Z.mod_pos_bound n 65536). lia. Qed.

Lemma speed_ok_not_nan (x : float) : speed_ok x = true -> is_nan x = false.
Proof.
  unfold speed_ok. intros H. apply andb_true_iff in H as [H _].
  apply (leb_not_nan _ _ H).
Qed.

(** A temperature within [20, 110] is a finite float. *)
Lemma temp_ok_finite (x : float) : temp_ok x = true -> is_finite x = true.
Proof.
  unfold temp_ok. intros H. apply andb_true_iff in H as [H1 H2].
  destruct x as [s|s| |s m e]; try reflexivity; try discriminate.
  destruct s; discriminate.
Qed.

Lemma is_finite_not_nan (x : float) : is_finite x = true -> is_nan x = false.
Proof. destruct x; simpl; congruence. Qed.

(** One update keeps the three bounds. *)
Lemma update_step_ok (s : VehicleState_t) :
  state_ok s = true -> state_ok (update_step s) = true.
Proof.
  unfold state_ok. intros H.
  apply andb_true_iff in H as [H Ht]. apply andb_true_iff in H as [Hs Hr].
  unfold update_step; cbn [speed_kph engine_rpm coolant_temp_c].
  apply andb_true_iff; split; [apply andb_true_iff; split|].
  - unfold speed_ok. apply andb_true_iff.
    apply clamp_f_bounds; [|reflexivity].
    apply mul_finite_not_nan, speed_ok_not_nan, Hs.
  - rewrite rpm_clamp_exact by apply wrap_u16_range.
    pose proof (clamp_rpm_range
                  (wrap_u16 (engine_rpm s +
                     u16_of_float (mul (sub (add c800
                       (mul (clamp_f (mul (speed_kph s) c0_98) zero c200) c50))
                       (float_of_u16 (engine_rpm s))) c0_3)))) as Hc.
    unfold rpm_ok. apply andb_true_iff. split; apply Z.leb_le; lia.
  - unfold temp_ok. apply andb_true_iff.
    pose proof (temp_ok_finite _ Ht) as Hfin.
    apply clamp_f_bounds; [|reflexivity].
    destruct (1000 <? _).
    + apply add_finite_not_nan; [exact Hfin|].
      apply mul_finite_not_nan, sub_finite_not_nan;
        [reflexivity|apply is_finite_not_nan, Hfin].
    + apply sub_finite_not_nan; [exact Hfin|reflexivity].
Qed.

End VehicleFacts.

(** ** vehicle.c: the four operations *)

Section VehicleClaims.
Context {platform : Platform}.

(** C1. From any state with 0 <= speed <= 200, 600 <= rpm <= 6000 and
    20 <= temperature <= 110, any finite sequence of [Vehicle_Update]
    calls, each with [dt > 0], ends in a state within the same three
    bounds. *)
Theorem C1_updates_keep_bounds (vs : VehicleState_ptr) (dts : list float)
  (mem : VehicleState_t) :
  state_ok mem = true ->
  Forall (fun dt => ltb zero dt = true) dts ->
  state_ok (run_updates vs dts mem) = true.
Proof.
  intros Hok Hdts. revert mem Hok.
  induction Hdts as [|dt rest Hdt _ IH]; intros mem Hok; simpl; [exact Hok|].
  apply IH. destruct vs; simpl; [exact Hok|].
  destruct (leb dt zero); [exact Hok|apply update_step_ok, Hok].
Qed.

(** With [dt > 0] and a non-NULL pointer the update really runs. *)
Lemma Vehicle_Update_runs (dt : float) (mem : VehicleState_t) :
  ltb zero dt = true -> Vehicle_Update PTR dt mem = update_step mem.
Proof.
  intros H. simpl.
  destruct (leb dt zero) eqn:E; [|reflexivity].
  rewrite (leb_true_ltb_false _ _ E) in H. discriminate.
Qed.

(** For every input that is not NaN, [Vehicle_SetTargetSpeed] stores a
    speed within [0, 200] and leaves the other two fields alone. *)
Lemma SetTargetSpeed_clamps (v : float) (mem : VehicleState_t) :
  is_nan v = false ->
  speed_ok (speed_kph (Vehicle_SetTargetSpeed PTR v mem)) = true /\
  engine_rpm (Vehicle_SetTargetSpeed PTR v mem) = engine_rpm mem /\
  coolant_temp_c (Vehicle_SetTargetSpeed PTR v mem) = coolant_temp_c mem.
Proof.
  intros Hv. simpl. repeat split.
  unfold speed_ok. apply andb_true_iff. apply clamp_f_bounds; [exact Hv|reflexivity].
Qed.

(** C4, at the input where the code departs from it: a NaN speed goes
    through [clamp_f] unchanged, so the stored speed is NaN and not within
    [0, 200]; rpm and temperature are untouched. *)
Theorem C4_nan_speed_is_stored (mem : VehicleState_t) :
  speed_kph (Vehicle_SetTargetSpeed PTR nan mem) = nan /\
  speed_ok (speed_kph (Vehicle_SetTargetSpeed PTR nan mem)) = false /\
  engine_rpm (Vehicle_SetTargetSpeed PTR nan mem) = engine_rpm mem /\
  coolant_temp_c (Vehicle_SetTargetSpeed PTR nan mem) = coolant_temp_c mem.
Proof. simpl. rewrite clamp_f_nan. repeat split. Qed.

(** C8. Calling [Vehicle_Force] twice in succession with the same
    arguments leaves the state the first call produced. *)
Theorem C8_force_idempotent (vs : VehicleState_ptr) (s : float) (r : Z)
  (t : float) (mem : VehicleState_t) :
  Vehicle_Force vs s r t (Vehicle_Force vs s r t mem)
  = Vehicle_Force vs s r t mem.
Proof. destruct vs; reflexivity. Qed.

(** What [Vehicle_Force] stores for a [uint16_t] rpm argument. *)
Lemma Vehicle_Force_fields (s : float) (r : Z) (t : float)
  (mem : VehicleState_t) :
  0 <= r <= UINT16_MAX ->
  Vehicle_Force PTR s r t mem =
  {| speed_kph := clamp_f s zero c200;
     engine_rpm := clamp_rpm r;
     coolant_temp_c := clamp_f t c20 c110 |}.
Proof. intros H. simpl. rewrite (rpm_clamp_exact r H). reflexivity. Qed.

(** Forcing the fields a forced state already holds changes nothing: the
    three clamps are projections. *)
Lemma Vehicle_Force_absorbs (s : float) (r : Z) (t : float)
  (mem : VehicleState_t) :
  0 <= r <= UINT16_MAX ->
  let forced := Vehicle_Force PTR s r t mem in
  Vehicle_Force PTR (speed_kph forced) (engine_rpm forced)
    (coolant_temp_c forced) forced = forced.
Proof.
  intros H forced. subst forced. rewrite (Vehicle_Force_fields s r t mem H).
  cbn [speed_kph engine_rpm coolant_temp_c].
  pose proof (clamp_rpm_range r) as Hr.
  rewrite Vehicle_Force_fields by (unfold UINT16_MAX; lia).
  rewrite !clamp_f_idem by reflexivity.
  f_equal. unfold clamp_rpm in *. lia.
Qed.

(** Forcing the current speed and rpm of a state within bounds together
    with 115 degrees keeps speed and rpm and stores 110 degrees, the upper
    bound. *)
Lemma Vehicle_Force_overheat (mem : VehicleState_t) :
  state_ok mem = true ->
  Vehicle_Force PTR (speed_kph mem) (engine_rpm mem) c115 mem =
  {| speed_kph := speed_kph mem;
     engine_rpm := engine_rpm mem;
     coolant_temp_c := c110 |}.
Proof.
  unfold state_ok. intros H.
  apply andb_true_iff in H as [H _]. apply andb_true_iff in H as [Hs Hr].
  unfold speed_ok in Hs. apply andb_true_iff in Hs as [Hs1 Hs2].
  unfold rpm_ok in Hr. apply andb_true_iff in Hr as [Hr1 Hr2].
  apply Z.leb_le in Hr1, Hr2.
  rewrite Vehicle_Force_fields by (unfold UINT16_MAX; lia).
  rewrite (clamp_f_id _ _ _ Hs1 Hs2).
  f_equal. unfold clamp_rpm. lia.
Qed.

(** C9. With a NULL state pointer, [Vehicle_Init], [Vehicle_Update],
    [Vehicle_SetTargetSpeed] and [Vehicle_Force] return with the instance
    untouched, whatever their other arguments. *)
Theorem C9_null_pointer_no_op (mem : VehicleState_t) (dt v s t : float)
  (r : Z) :
  Vehicle_Init NULL mem = mem /\
  Vehicle_Update NULL dt mem = mem /\
  Vehicle_SetTargetSpeed NULL v mem = mem /\
  Vehicle_Force NULL s r t mem = mem.
Proof. repeat split. Qed.

End VehicleClaims.

(** C1 at a concrete input: three ticks from the cruising state. *)
Lemma C1_updates_keep_bounds_witness :
  state_ok cruising = true /\
  Forall (fun dt => ltb zero dt = true) [tick; tick; tick] /\
  state_ok (run_updates PTR [tick; tick; tick] cruising) = true.
Proof.
  split; [reflexivity|]. split; [repeat constructor|].
  apply (C1_updates_keep_bounds PTR [tick; tick; tick] cruising);
    [reflexivity|repeat constructor].
Defined.

(** The three ticks of the witness do change the state. *)
Example cruising_after_three_ticks :
  run_updates PTR [tick; tick; tick] cruising =
  {| speed_kph := S754_finite false 12336392 (-17);
     engine_rpm := 4694;
     coolant_temp_c := S754_finite false 14602732 (-18) |}.
Proof. vm_compute. reflexivity. Qed.

(** ** cli_if.c: the receive ring buffer *)

Lemma next_index (i : Z) :
  ((i + 1) mod CLI_RX_BUF_SIZE) mod 256 = (i + 1) mod CLI_RX_BUF_SIZE.
Proof.
  unfold CLI_RX_BUF_SIZE. apply Z.mod_small.
  pose proof (Z.mod_pos_bound (i + 1) 64). lia.
Qed.

Lemma cli_push_full (c : ascii) (st : cli_t) :
  (s_cliHead st + 1) mod CLI_RX_BUF_SIZE = s_cliTail st -> cli_push c st = st.
Proof.
  intros H. unfold cli_push. rewrite next_index, H, Z.eqb_refl. reflexivity.
Qed.

Lemma cli_pop_empty (c : ascii) (st : cli_t) :
  s_cliHead st = s_cliTail st -> cli_pop c st = (0, c, st).
Proof. intros H. unfold cli_pop. rewrite H, Z.eqb_refl. reflexivity. Qed.

Lemma cli_push_indices (c : ascii) (st : cli_t) :
  indices_ok st -> indices_ok (cli_push c st).
Proof.
  unfold indices_ok, cli_push. rewrite next_index. intros [Hh Ht].
  destruct (negb _); simpl; [|auto].
  unfold CLI_RX_BUF_SIZE in *.
  pose proof (Z.mod_pos_bound (s_cliHead st + 1) 64). lia.
Qed.

Lemma cli_pop_indices (c : ascii) (st : cli_t) :
  indices_ok st -> indices_ok (snd (cli_pop c st)).
Proof.
  unfold indices_ok, cli_pop. rewrite next_index. intros [Hh Ht].
  destruct (_ =? _); simpl; [auto|].
  unfold CLI_RX_BUF_SIZE in *.
  pose proof (Z.mod_pos_bound (s_cliTail st + 1) 64). lia.
Qed.

Lemma rb_step_indices (st : cli_t) (op : rb_op) :
  indices_ok st -> indices_ok (rb_step st op).
Proof. destruct op; simpl; auto using cli_push_indices, cli_pop_indices. Qed.

Lemma rb_run_indices (ops : list rb_op) :
  forall st, indices_ok st -> indices_ok (rb_run ops st).
Proof.
  unfold rb_run. induction ops as [|op ops IH]; simpl; intros st H; [exact H|].
  apply IH, rb_step_indices, H.
Qed.

Lemma pending_range (st : cli_t) : 0 <= pending st <= 63.
Proof.
  unfold pending, CLI_RX_BUF_SIZE.
  pose proof (Z.mod_pos_bound (s_cliHead st - s_cliTail st) 64). lia.
Qed.

(** A push stores its byte exactly when fewer than 63 bytes are unread. *)
Lemma push_succeeds_iff (st : cli_t) :
  indices_ok st -> (push_succeeds st = true <-> pending st < 63).
Proof.
  unfold indices_ok, push_succeeds, pending. rewrite next_index.
  unfold CLI_RX_BUF_SIZE. intros [Hh Ht].
  rewrite negb_true_iff, Z.eqb_neq.
  split; intros H; Z.div_mod_to_equations; lia.
Qed.

Lemma cli_push_pending (c : ascii) (st : cli_t) :
  indices_ok st ->
  pending (cli_push c st)
  = if push_succeeds st then pending st + 1 else pending st.
Proof.
  intros Hok. pose proof (push_succeeds_iff st Hok) as Hiff.
  unfold cli_push. fold (push_succeeds st).
  destruct (push_succeeds st); [|reflexivity].
  assert (pending st < 63) as Hp by (apply Hiff; reflexivity).
  revert Hp. unfold pending; simpl. rewrite next_index.
  destruct Hok as [Hh Ht]. unfold CLI_RX_BUF_SIZE in *.
  intros Hp. Z.div_mod_to_equations; lia.
Qed.

Lemma cli_pop_pending (c : ascii) (st : cli_t) :
  indices_ok st ->
  pending (snd (cli_pop c st))
  = if s_cliHead st =? s_cliTail st then pending st else pending st - 1.
Proof.
  intros [Hh Ht]. unfold cli_pop.
  destruct (s_cliHead st =? s_cliTail st) eqn:E; [reflexivity|].
  apply Z.eqb_neq in E. unfold pending; simpl. rewrite next_index.
  unfold CLI_RX_BUF_SIZE in *. Z.div_mod_to_equations; lia.
Qed.

(** C6. A push on a full buffer (the advanced head would equal the tail)
    returns the state as it was: contents and both indices unchanged, the
    byte dropped. A pop on an empty buffer (head equals tail) returns 0 and
    leaves the state and the caller's byte as they were. *)
Theorem C6_full_push_drops_empty_pop_reports (c : ascii) (st : cli_t) :
  ((s_cliHead st + 1) mod CLI_RX_BUF_SIZE = s_cliTail st ->
   cli_push c st = st) /\
  (s_cliHead st = s_cliTail st -> cli_pop c st = (0, c, st)).
Proof. split; [apply cli_push_full|apply cli_pop_empty]. Qed.

(** C6 at concrete inputs: a push on the full sample buffer, a pop on the
    freshly initialised one. *)
Lemma C6_full_push_drops_empty_pop_reports_witness :
  ((s_cliHead ring_full + 1) mod CLI_RX_BUF_SIZE = s_cliTail ring_full /\
   cli_push "y"%char ring_full = ring_full) /\
  (s_cliHead cli_bound = s_cliTail cli_bound /\
   cli_pop "y"%char cli_bound = (0, "y"%char, cli_bound)).
Proof.
  split.
  - split; [reflexivity|].
    apply (C6_full_push_drops_empty_pop_reports "y"%char ring_full).
    reflexivity.
  - split; [reflexivity|].
    apply (C6_full_push_drops_empty_pop_reports "y"%char cli_bound).
    reflexivity.
Defined.

(** Filling the buffer: 63 pushes are stored, the 64th is dropped, and
    after 63 pops the next pop reports empty. *)
Example ring_fill_and_drain :
  rb_run (replicate 63 (Push "x"%char)) cli_bound = ring_full /\
  rb_run (replicate 64 (Push "x"%char)) cli_bound = ring_full /\
  fst (fst (cli_pop NUL (rb_run (replicate 63 Pop) ring_full))) = 0.
Proof. repeat split; vm_compute; reflexivity. Qed.

(** ** log.c: the level filter *)

Lemma format_line_nonempty lc m msg : (0 < length (format_line lc m msg))%nat.
Proof. unfold format_line. simpl. lia. Qed.

Lemma transmitted_bytes (out : list ascii) :
  (0 < length out)%nat ->
  take (Z.to_nat (if 160 <? Z.of_nat (length out) then 160
                  else Z.of_nat (length out)))
       (snprintf_buf 160 out)
  = if (length out <? 160)%nat then out else take 159 out ++ [NUL].
Proof.
  intros Hpos. unfold snprintf_buf.
  change (160 - 1)%nat with 159%nat.
  destruct (length out <? 160)%nat eqn:E.
  - apply Nat.ltb_lt in E.
    replace (160 <? Z.of_nat (length out)) with false by (symmetry; apply Z.ltb_ge; lia).
    rewrite Nat2Z.id. rewrite (take_ge out 159); [|lia].
    apply take_app_length.
  - apply Nat.ltb_ge in E.
    assert (length (take 159 out ++ [NUL]) = 160%nat) as Hl.
    { rewrite length_app, length_take. cbn [length]. lia. }
    destruct (160 <? Z.of_nat (length out)) eqn:E2.
    + apply take_ge. rewrite Hl. lia.
    + apply Z.ltb_ge in E2. apply take_ge. rewrite Hl. lia.
Qed.

Lemma Log_Write_eq lg level module full wire :
  Log_Write lg level module (Some full) wire =
  if s_logLevel lg <? level then wire
  else match s_logUart lg with
       | None => wire
       | Some uart => wire ++ [{| tx_uart := uart; tx_bytes := log_line level module full |}]
       end.
Proof.
  unfold Log_Write. destruct (s_logLevel lg <? level); [reflexivity|].
  destruct (s_logUart lg) as [uart|]; [|reflexivity].
  set (out := format_line _ _ _).
  pose proof (format_line_nonempty (levelChar level)
     (match module with None => chars "GEN" | Some m => m end) (snprintf_buf 128 full)) as Hpos.
  fold out in Hpos.
  replace (Z.of_nat (length out) <=? 0) with false by (symmetry; apply Z.leb_gt; lia).
  unfold HAL_UART_Transmit. rewrite (transmitted_bytes out Hpos). reflexivity.
Qed.

(** C5, as the code has it. [Log_Write] leaves the transcript as it was
    when the level is numerically above the configured one or no UART is
    bound; otherwise it appends exactly one transmit on the log UART,
    carrying the formatted line. The configured level is informational by
    default. *)
Theorem C5_log_write_filters_by_level (lg : log_t) (level : log_level_t)
  (module : option (list ascii)) (full : list ascii) (wire : list uart_tx) :
  (s_logLevel lg < level \/ s_logUart lg = None ->
   Log_Write lg level module (Some full) wire = wire) /\
  (forall uart, level <= s_logLevel lg -> s_logUart lg = Some uart ->
   Log_Write lg level module (Some full) wire
   = wire ++ [{| tx_uart := uart; tx_bytes := log_line level module full |}]) /\
  s_logLevel log_initial = LOG_LEVEL_INFO.
Proof.
  rewrite Log_Write_eq. repeat split.
  - intros [H | H].
    + replace (s_logLevel lg <? level) with true
        by (symmetry; apply Z.ltb_lt; exact H). reflexivity.
    + rewrite H. destruct (s_logLevel lg <? level); reflexivity.
  - intros uart Hle Hu.
    replace (s_logLevel lg <? level) with false
      by (symmetry; apply Z.ltb_ge; exact Hle).
    rewrite Hu. reflexivity.
Qed.

(** C5 at concrete inputs: a debug record and a warning at the default
    level. *)
Lemma C5_log_write_filters_by_level_witness :
  (s_logLevel log_bound < LOG_LEVEL_DEBUG /\
   Log_Write log_bound LOG_LEVEL_DEBUG (Some (chars "CLI"))
     (Some (chars "Command: 'h'")) [] = []) /\
  (LOG_LEVEL_WARN <= s_logLevel log_bound /\
   s_logUart log_bound = Some 2%nat /\
   Log_Write log_bound LOG_LEVEL_WARN (Some (chars "CLI"))
     (Some (chars "Injected coolant overheat")) []
   = [] ++ [{| tx_uart := 2%nat;
               tx_bytes := log_line LOG_LEVEL_WARN (Some (chars "CLI"))
                             (chars "Injected coolant overheat") |}]).
Proof.
  split.
  - split; [reflexivity|].
    apply (C5_log_write_filters_by_level log_bound LOG_LEVEL_DEBUG
             (Some (chars "CLI")) (chars "Command: 'h'") []).
    left. reflexivity.
  - split; [discriminate|]. split; [reflexivity|].
    apply (C5_log_write_filters_by_level log_bound LOG_LEVEL_WARN
             (Some (chars "CLI")) (chars "Injected coolant overheat") []).
    + discriminate.
    + reflexivity.
Defined.

(** Against C5 as written: at the default level an error record, whose
    level is numerically below the configured one, is emitted, and a debug
    record, whose level is not below it, is dropped. *)
Lemma C5_numerically_below_is_emitted :
  LOG_LEVEL_ERROR < s_logLevel log_bound /\
  Log_Write log_bound LOG_LEVEL_ERROR (Some (chars "CLI"))
    (Some (chars "fault")) []
  = [{| tx_uart := 2%nat; tx_bytes := chars "[E][CLI] fault" ++ crlf |}] /\
  ~ LOG_LEVEL_DEBUG < s_logLevel log_bound /\
  Log_Write log_bound LOG_LEVEL_DEBUG (Some (chars "CLI"))
    (Some (chars "fault")) [] = [].
Proof.
  split; [reflexivity|]. split; [vm_compute; reflexivity|].
  split; [discriminate|reflexivity].
Qed.

(** ** can_if.h: the telemetry payload *)

(** C3, with the payload the format gives. For speed 25.0, rpm 2000 and
    temperature 85.0 the frame carries [FA 00 D0 07 52 03]: 850 is 0x0352,
    so byte 4 is 0x52, whichever way the scaled values are rounded. *)
Theorem C3_known_state_payload (r : rounding) :
  telemetry_encode r known_state
  = Some {| StdId := 256; DLC := 6; Data := [250; 0; 208; 7; 82; 3] |}.
Proof. destruct r; vm_compute; reflexivity. Qed.

(** Against C3 as written: the payload is not [FA 00 D0 07 32 03]. *)
Lemma C3_claimed_payload_differs :
  option_map Data (telemetry_encode Truncate known_state)
    <> Some [250; 0; 208; 7; 50; 3] /\
  option_map Data (telemetry_encode Nearest known_state)
    <> Some [250; 0; 208; 7; 50; 3].
Proof. split; vm_compute; discriminate. Qed.

(** ** cli_if.c: line assembly and dispatch *)

Lemma typed_line_nil (l : list ascii) (i : nat) : typed_line l i [] = l.
Proof. unfold typed_line. simpl. rewrite Nat.add_0_r. apply take_drop. Qed.

Lemma typed_line_length l i text :
  (i + length text <= length l)%nat -> length (typed_line l i text) = length l.
Proof.
  intros H. unfold typed_line. rewrite !length_app, length_take, length_drop. lia.
Qed.

Lemma typed_line_snoc (l : list ascii) (i : nat) (text : list ascii) (c : ascii) :
  (i + length text < length l)%nat ->
  <[(i + length text)%nat := c]> (typed_line l i text) = typed_line l i (text ++ [c]).
Proof.
  intros H. unfold typed_line.
  rewrite insert_app_r_alt by (rewrite length_take; lia).
  rewrite length_take, Nat.min_l by lia.
  rewrite insert_app_r_alt by lia.
  replace (i + length text - i - length text)%nat with 0%nat by lia.
  rewrite length_app. simpl length.
  destruct (drop (i + length text) l) as [|x rest] eqn:E.
  - apply (f_equal length) in E. rewrite length_drop in E. simpl in E. lia.
  - simpl. rewrite <- app_assoc. simpl. do 3 f_equal.
    replace (i + (length text + 1))%nat with (S (i + length text)) by lia.
    change (S (i + length text)) with (1 + (i + length text))%nat.
    rewrite Nat.add_comm, <- drop_drop, E. reflexivity.
Qed.

Section CliFacts.
Context {platform : Platform}.

(** Below capacity, a byte that is not a terminator is stored at [idx],
    [idx] advances and the byte is echoed on the CLI UART if one is bound. *)
Lemma cli_handle_char_stores (c : ascii) (e : ecu_t) :
  is_eol c = false -> 0 <= idx (cli e) < LINE_SIZE - 1 ->
  cli_handle_char c e =
  with_wire (wire e ++ echoes (s_cliUart (cli e)) [c])
    (with_cli (set_line (<[Z.to_nat (idx (cli e)) := c]> (line (cli e)))
                 (idx (cli e) + 1) (cli e)) e).
Proof.
  intros Hc Hi. unfold cli_handle_char. rewrite Hc.
  replace (idx (cli e) <? LINE_SIZE - 1) with true
    by (symmetry; apply Z.ltb_lt; lia).
  unfold LINE_SIZE in Hi.
  rewrite (Z.mod_small (idx (cli e) + 1) 256) by lia.
  destruct (s_cliUart (cli e)) as [u|]; cbn [echoes map].
  - reflexivity.
  - rewrite app_nil_r. reflexivity.
Qed.

Lemma feed_snoc (text : list ascii) (c : ascii) (e : ecu_t) :
  feed (text ++ [c]) e = cli_handle_char c (feed text e).
Proof. unfold feed. rewrite fold_left_app. reflexivity. Qed.

Lemma echoes_snoc u text c : echoes u (text ++ [c]) = echoes u text ++ echoes u [c].
Proof. destruct u; simpl; [apply map_app|reflexivity]. Qed.

(** Typing a text without terminators that fits the accumulator. *)
Lemma feed_accumulates (text : list ascii) (e : ecu_t) :
  Forall (fun c => is_eol c = false) text ->
  0 <= idx (cli e) ->
  idx (cli e) + Z.of_nat (length text) <= LINE_SIZE - 1 ->
  length (line (cli e)) = 32%nat ->
  feed text e =
  with_wire (wire e ++ echoes (s_cliUart (cli e)) text)
    (with_cli (set_line
                 (typed_line (line (cli e)) (Z.to_nat (idx (cli e))) text)
                 (idx (cli e) + Z.of_nat (length text)) (cli e)) e).
Proof.
  induction text as [|c text IH] using rev_ind; intros Hall H0 Hfit Hlen.
  - destruct e as [[u pv rx buf h t ln i] v lg cl w].
    cbn [feed fold_left cli wire line idx s_cliUart length Z.of_nat].
    rewrite typed_line_nil, Z.add_0_r.
    destruct u; cbn [echoes map]; rewrite app_nil_r; reflexivity.
  - apply Forall_app in Hall as [Hall Hc]. inversion Hc as [|? ? Hc' _]; subst.
    rewrite length_app in Hfit. simpl length in Hfit. unfold LINE_SIZE in *.
    rewrite feed_snoc, IH by (auto; lia).
    rewrite cli_handle_char_stores; [|exact Hc'|simpl; unfold LINE_SIZE; lia].
    simpl. unfold with_wire, with_cli, set_line; simpl.
    rewrite echoes_snoc, <- app_assoc.
    replace (Z.to_nat (idx (cli e) + Z.of_nat (length text)))
      with (Z.to_nat (idx (cli e)) + length text)%nat by lia.
    rewrite typed_line_snoc by lia.
    rewrite length_app. simpl length.
    replace (idx (cli e) + Z.of_nat (length text) + 1)
      with (idx (cli e) + Z.of_nat (length text + 1)) by lia.
    reflexivity.
Qed.

Lemma cli_uart_print_frame (s : list ascii) (e : ecu_t) :
  cli (cli_uart_print s e) = cli e /\
  vehicle (cli_uart_print s e) = vehicle e /\
  logger (cli_uart_print s e) = logger e /\
  can_logging (cli_uart_print s e) = can_logging e.
Proof.
  unfold cli_uart_print. destruct (s_cliUart (cli e)); [|auto].
  destruct (strlen s =? 0); auto.
Qed.

Lemma cli_handle_char_eol (c : ascii) (e : ecu_t) :
  is_eol c = true -> idx (cli e) <> 0 ->
  cli_handle_char c e =
  cli_dispatch
    (with_cli (set_line (<[Z.to_nat (idx (cli e)) := NUL]> (line (cli e))) 0
                 (cli e)) e).
Proof.
  intros Hc Hi. unfold cli_handle_char. rewrite Hc.
  apply Z.eqb_neq in Hi. rewrite Hi. reflexivity.
Qed.

Lemma dispatch_cool_hot (e : ecu_t) (rest : list ascii) :
  line (cli e) = chars "veh cool-hot" ++ NUL :: rest ->
  s_vehicle (cli e) = PTR ->
  vehicle (cli_dispatch e) =
  Vehicle_Force PTR (speed_kph (vehicle e)) (engine_rpm (vehicle e)) c115
    (vehicle e).
Proof.
  intros Hl Hv. unfold cli_dispatch.
  cbn [line cli log_from_cli with_wire]. rewrite Hl.
  replace (strcmp _ (chars "h") =? 0) with false by (vm_compute; reflexivity).
  replace (strcmp _ (chars "help") =? 0) with false by (vm_compute; reflexivity).
  replace (strncmp _ (chars "veh speed ") 10 =? 0) with false
    by (vm_compute; reflexivity).
  replace (strcmp _ (chars "veh cool-hot") =? 0) with true
    by (vm_compute; reflexivity).
  cbn [orb]. rewrite Hv.
  rewrite (proj1 (proj2 (cli_uart_print_frame _ _))). reflexivity.
Qed.


(** C2, as the code has it. With a vehicle bound, an empty accumulator and
    a state within the three bounds, the line "veh cool-hot" ended by CR or
    LF leaves speed and rpm as they were and stores 110.0 degrees: the
    115.0 the command passes is clamped by [Vehicle_Force]. *)
Theorem C2_cool_hot_stores_110 (eol : ascii) (e : ecu_t) :
  eol = CR \/ eol = LF ->
  s_vehicle (cli e) = PTR ->
  idx (cli e) = 0 ->
  length (line (cli e)) = 32%nat ->
  state_ok (vehicle e) = true ->
  vehicle (feed (chars "veh cool-hot" ++ [eol]) e) =
  {| speed_kph := speed_kph (vehicle e);
     engine_rpm := engine_rpm (vehicle e);
     coolant_temp_c := c110 |}.
Proof.
  intros Heol Hv Hi Hl Hok.
  rewrite <- (Vehicle_Force_overheat (vehicle e) Hok).
  rewrite feed_snoc.
  rewrite feed_accumulates;
    [|repeat constructor|lia|rewrite Hi; unfold LINE_SIZE; simpl; lia|exact Hl].
  rewrite Hi. cbn [Z.to_nat Z.add length chars list_ascii_of_string Z.of_nat].
  rewrite cli_handle_char_eol;
    [|destruct Heol; subst; reflexivity|simpl; lia].
  rewrite (dispatch_cool_hot _ (drop 13 (line (cli e)))); [reflexivity| |exact Hv].
  cbn [cli with_cli with_wire set_line line idx].
  unfold typed_line.
  destruct (line (cli e)) as [|? l]; [discriminate|].
  do 12 (destruct l as [|? l]; [discriminate|]).
  reflexivity.
Qed.

(** C7, as the code has it. With the accumulator at capacity, a byte that
    is not a terminator changes nothing: it is neither stored nor queued
    again, and nothing is transmitted, so it is not echoed. *)
Theorem C7_full_line_ignores_byte (c : ascii) (e : ecu_t) :
  is_eol c = false -> LINE_SIZE - 1 <= idx (cli e) -> cli_handle_char c e = e.
Proof.
  intros Hc Hi. unfold cli_handle_char. rewrite Hc.
  destruct (idx (cli e) <? LINE_SIZE - 1) eqn:E; [|reflexivity].
  apply Z.ltb_lt in E. lia.
Qed.

End CliFacts.

(** C2 at a concrete input: the cruising sample, line ended by CR. *)
Lemma C2_cool_hot_stores_110_witness :
  (CR = CR \/ CR = LF) /\
  s_vehicle (cli ecu_cruising) = PTR /\
  idx (cli ecu_cruising) = 0 /\
  length (line (cli ecu_cruising)) = 32%nat /\
  state_ok (vehicle ecu_cruising) = true /\
  vehicle (feed (chars "veh cool-hot" ++ [CR]) ecu_cruising) =
  {| speed_kph := speed_kph (vehicle ecu_cruising);
     engine_rpm := engine_rpm (vehicle ecu_cruising);
     coolant_temp_c := c110 |}.
Proof.
  split; [left; reflexivity|]. repeat (split; [reflexivity|]).
  apply (C2_cool_hot_stores_110 CR ecu_cruising);
    [left; reflexivity|reflexivity|reflexivity|reflexivity|reflexivity].
Defined.

(** Against C2 as written: after the command the temperature is not
    115.0, for either terminator. *)
Lemma C2_temperature_is_not_115 :
  state_ok (vehicle ecu_cruising) = true /\
  s_vehicle (cli ecu_cruising) = PTR /\
  coolant_temp_c (vehicle (feed (chars "veh cool-hot" ++ [CR]) ecu_cruising))
    <> c115 /\
  coolant_temp_c (vehicle (feed (chars "veh cool-hot" ++ [LF]) ecu_cruising))
    <> c115 /\
  SFeqb
    (coolant_temp_c (vehicle (feed (chars "veh cool-hot" ++ [CR]) ecu_cruising)))
    c115 = false.
Proof.
  split; [reflexivity|]. split; [reflexivity|].
  split; [vm_compute; discriminate|]. split; [vm_compute; discriminate|].
  vm_compute; reflexivity.
Qed.

(** C7 at a concrete input: a byte typed into the full sample line. *)
Lemma C7_full_line_ignores_byte_witness :
  is_eol "b"%char = false /\
  LINE_SIZE - 1 <= idx (cli ecu_line_full) /\
  cli_handle_char "b"%char ecu_line_full = ecu_line_full.
Proof.
  split; [reflexivity|]. split; [discriminate|].
  apply (C7_full_line_ignores_byte "b"%char ecu_line_full);
    [reflexivity|discriminate].
Defined.

(** Against C7 as written: the CLI UART is bound and the line is full, yet
    the byte is not echoed; the transcript stays empty. *)
Lemma C7_full_line_byte_not_echoed :
  s_cliUart (cli ecu_line_full) = Some 2%nat /\
  idx (cli ecu_line_full) = LINE_SIZE - 1 /\
  is_eol "b"%char = false /\
  wire (cli_handle_char "b"%char ecu_line_full)
    <> wire ecu_line_full ++ [{| tx_uart := 2%nat; tx_bytes := ["b"%char] |}] /\
  wire (cli_handle_char "b"%char ecu_line_full) = [].
Proof.
  repeat (split; [reflexivity|]). split; [vm_compute; discriminate|].
  vm_compute; reflexivity.
Qed.

(** C4 through the command line: with a C99 [atof], "veh speed nan" stores
    a NaN speed. *)
Example veh_speed_nan_stores_nan :
  speed_kph (vehicle (feed (chars "veh speed nan" ++ [CR]) ecu_cruising))
  = nan.
Proof. vm_compute. reflexivity. Qed.

(** ** Further properties of vehicle.c *)

Section VehicleExtras.
Context {platform : Platform}.

Lemma update_step_rpm_ok (mem : VehicleState_t) :
  rpm_ok (engine_rpm (update_step mem)) = true.
Proof.
  unfold update_step; cbn [engine_rpm].
  rewrite rpm_clamp_exact by apply wrap_u16_range.
  match goal with |- rpm_ok (clamp_rpm ?x) = true =>
    pose proof (clamp_rpm_range x) as Hc end.
  unfold rpm_ok. apply andb_true_iff. split; apply Z.leb_le; lia.
Qed.

(** X1. One [Vehicle_Update] that passes its guard leaves the rpm within
    [600, 6000] whatever the state before: wrong rpm, NaN speed or
    temperature included. *)
Theorem X1_update_repairs_rpm (dt : float) (mem : VehicleState_t) :
  leb dt zero = false ->
  rpm_ok (engine_rpm (Vehicle_Update PTR dt mem)) = true.
Proof.
  intros H. simpl. rewrite H. apply update_step_rpm_ok.
Qed.

Lemma update_step_nan_speed (mem : VehicleState_t) :
  speed_kph mem = nan -> speed_kph (update_step mem) = nan.
Proof.
  intros H. unfold update_step; cbn [speed_kph]. rewrite H.
  change (mul nan c0_98) with nan. apply clamp_f_nan.
Qed.

(** X2. A NaN speed survives every [Vehicle_Update]: neither the decay nor
    [clamp_f] replaces it. *)
Theorem X2_nan_speed_is_never_repaired (vs : VehicleState_ptr)
  (dts : list float) (mem : VehicleState_t) :
  speed_kph mem = nan -> speed_kph (run_updates vs dts mem) = nan.
Proof.
  revert mem. induction dts as [|dt dts IH]; intros mem H; simpl; [exact H|].
  apply IH. destruct vs; simpl; [exact H|].
  destruct (leb dt zero); [exact H|apply update_step_nan_speed, H].
Qed.

Lemma do_call_ok (vs : VehicleState_ptr) (c : vehicle_call)
  (mem : VehicleState_t) :
  call_has_no_nan c = true -> state_ok mem = true ->
  state_ok (do_call vs c mem) = true.
Proof.
  intros Hc Hok. destruct vs; [destruct c; exact Hok|].
  destruct c as [|dt|v|s r t]; cbn [do_call].
  - reflexivity.
  - simpl. destruct (leb dt zero); [exact Hok|apply update_step_ok, Hok].
  - simpl in Hc. apply negb_true_iff in Hc.
    destruct (SetTargetSpeed_clamps v mem Hc) as (H1 & H2 & H3).
    unfold state_ok in *. rewrite H1, H2, H3.
    apply andb_true_iff in Hok as [Hok Ht]. apply andb_true_iff in Hok as [_ Hr].
    rewrite Hr, Ht. reflexivity.
  - simpl in Hc. apply andb_true_iff in Hc as [Hc Hr2].
    apply andb_true_iff in Hc as [Hc Hr1]. apply andb_true_iff in Hc as [Hs Ht].
    apply negb_true_iff in Hs, Ht. apply Z.leb_le in Hr1, Hr2.
    rewrite Vehicle_Force_fields by lia.
    unfold state_ok; cbn [speed_kph engine_rpm coolant_temp_c].
    pose proof (clamp_rpm_range r) as Hc.
    destruct (clamp_f_bounds s zero c200 Hs eq_refl) as [A1 A2].
    destruct (clamp_f_bounds t c20 c110 Ht eq_refl) as [B1 B2].
    unfold speed_ok, rpm_ok, temp_ok. rewrite A1, A2, B1, B2.
    replace (600 <=? clamp_rpm r) with true by (symmetry; apply Z.leb_le; lia).
    replace (clamp_rpm r <=? 6000) with true by (symmetry; apply Z.leb_le; lia).
    reflexivity.
Qed.

Lemma run_calls_ok (vs : VehicleState_ptr) (cs : list vehicle_call) :
  forall mem, forallb call_has_no_nan cs = true -> state_ok mem = true ->
  state_ok (run_calls vs cs mem) = true.
Proof.
  unfold run_calls. induction cs as [|c cs IH]; intros mem Hcs Hok; simpl; [exact Hok|].
  simpl in Hcs. apply andb_true_iff in Hcs as [Hc Hcs].
  apply IH; [exact Hcs|apply do_call_ok; assumption].
Qed.

(** X3. After [Vehicle_Init], any sequence of calls of the four functions
    keeps the three bounds, provided no float argument of a setter is NaN
    and the rpm argument is a [uint16_t]; the time steps are arbitrary
    (zero, negative, infinite, NaN). *)
Theorem X3_initialised_model_stays_in_bounds (cs : list vehicle_call)
  (mem : VehicleState_t) :
  forallb call_has_no_nan cs = true ->
  state_ok (run_calls PTR (CallInit :: cs) mem) = true.
Proof.
  intros H. change (run_calls PTR (CallInit :: cs) mem)
    with (run_calls PTR cs init_state).
  apply run_calls_ok; [exact H|reflexivity].
Qed.

(** X4. The rpm [Vehicle_Force] stores is the integer clamp of its argument:
    the conversion to float and back loses nothing. *)
Theorem X4_force_rpm_is_integer_clamp (s : float) (r : Z) (t : float)
  (mem : VehicleState_t) :
  0 <= r <= UINT16_MAX ->
  engine_rpm (Vehicle_Force PTR s r t mem)
  = if r <? 600 then 600 else if 6000 <? r then 6000 else r.
Proof.
  intros H. rewrite Vehicle_Force_fields by exact H. cbn [engine_rpm].
  unfold clamp_rpm. destruct (r <? 600) eqn:E1; [apply Z.ltb_lt in E1; lia|].
  apply Z.ltb_ge in E1. destruct (6000 <? r) eqn:E2;
    [apply Z.ltb_lt in E2|apply Z.ltb_ge in E2]; lia.
Qed.

(** X5. [Vehicle_SetTargetSpeed] stores a speed within [0, 200] as it is, 0
    for a negative one, 200 for one above 200, and a speed within bounds
    for every input that is not NaN. *)
Theorem X5_set_target_speed_keeps_valid_input (v : float)
  (mem : VehicleState_t) :
  (speed_ok v = true -> speed_kph (Vehicle_SetTargetSpeed PTR v mem) = v) /\
  (ltb v zero = true -> speed_kph (Vehicle_SetTargetSpeed PTR v mem) = zero) /\
  (gtb v c200 = true -> speed_kph (Vehicle_SetTargetSpeed PTR v mem) = c200) /\
  (is_nan v = false ->
   speed_ok (speed_kph (Vehicle_SetTargetSpeed PTR v mem)) = true).
Proof.
  simpl. repeat split.
  - unfold speed_ok. intros H. apply andb_true_iff in H as [H1 H2].
    apply clamp_f_id; assumption.
  - intros H. unfold clamp_f. rewrite H. reflexivity.
  - intros H. unfold clamp_f. rewrite H.
    destruct (ltb v zero) eqn:E; [|reflexivity].
    exfalso. unfold gtb, ltb, SFltb in *.
    destruct v as [[]|[]| |[] m e]; simpl in *; try discriminate.
  - intros H. unfold speed_ok. apply andb_true_iff.
    apply clamp_f_bounds; [exact H|reflexivity].
Qed.

Lemma update_step_idle (t : float) :
  exists t', update_step {| speed_kph := zero; engine_rpm := 800; coolant_temp_c := t |}
  = {| speed_kph := zero; engine_rpm := 800; coolant_temp_c := t' |}.
Proof.
  unfold update_step; cbn [speed_kph engine_rpm coolant_temp_c].
  change (clamp_f (mul zero c0_98) zero c200) with zero.
  change (mul zero c50) with zero.
  change (add c800 zero) with c800.
  replace (sub c800 (float_of_u16 800)) with zero by (vm_compute; reflexivity).
  change (mul zero c0_3) with zero.
  change (u16_of_float zero) with 0.
  change (wrap_u16 (800 + 0)) with 800.
  rewrite rpm_clamp_exact by (unfold UINT16_MAX; lia).
  change (clamp_rpm 800) with 800. eexists. reflexivity.
Qed.

Lemma Vehicle_Update_idle (vs : VehicleState_ptr) (dt : float)
  (mem : VehicleState_t) :
  speed_kph mem = zero -> engine_rpm mem = 800 ->
  speed_kph (Vehicle_Update vs dt mem) = zero /\
  engine_rpm (Vehicle_Update vs dt mem) = 800.
Proof.
  destruct mem as [s r t]; cbn [speed_kph engine_rpm]; intros -> ->.
  unfold Vehicle_Update. destruct vs; [auto|].
  destruct (leb dt zero); [auto|].
  destruct (update_step_idle t) as [t' ->]. auto.
Qed.

(** X6. A vehicle at speed 0 and 800 rpm stays there under any number of
    updates, whatever its temperature. *)
Theorem X6_idle_vehicle_stays_idle (vs : VehicleState_ptr) (dts : list float)
  (mem : VehicleState_t) :
  speed_kph mem = zero -> engine_rpm mem = 800 ->
  speed_kph (run_updates vs dts mem) = zero /\
  engine_rpm (run_updates vs dts mem) = 800.
Proof.
  revert mem. induction dts as [|dt dts IH]; intros mem Hs Hr;
    cbn [run_updates]; [auto|].
  destruct (Vehicle_Update_idle vs dt mem Hs Hr) as [Hs' Hr'].
  apply IH; assumption.
Qed.
End VehicleExtras.

(** ** Further properties of the ring buffer *)

Lemma unread_length (st : cli_t) : length (unread st) = Z.to_nat (pending st).
Proof. unfold unread. rewrite length_map, length_seq. reflexivity. Qed.

Lemma cli_push_ring_ok (c : ascii) (st : cli_t) : ring_ok st -> ring_ok (cli_push c st).
Proof.
  intros [Hi Hl]. split; [apply cli_push_indices, Hi|].
  unfold cli_push. destruct (negb _); simpl; [|exact Hl].
  rewrite length_insert. exact Hl.
Qed.

Lemma cli_pop_ring_ok (c : ascii) (st : cli_t) : ring_ok st -> ring_ok (snd (cli_pop c st)).
Proof.
  intros [Hi Hl]. split; [apply cli_pop_indices, Hi|].
  unfold cli_pop. destruct (_ =? _); simpl; exact Hl.
Qed.

Lemma unread_push (c : ascii) (st : cli_t) :
  ring_ok st -> unread (cli_push c st) = fifo_step (unread st) (Push c).
Proof.
  intros [Hi Hl]. pose proof (push_succeeds_iff st Hi) as Hiff.
  pose proof (cli_push_pending c st Hi) as Hp.
  pose proof (pending_range st) as Hr.
  simpl. rewrite unread_length.
  unfold unread at 1. rewrite Hp. clear Hp.
  unfold cli_push. fold (push_succeeds st).
  destruct (push_succeeds st).
  - assert (pending st < 63) as Hlt by (apply Hiff; reflexivity).
    replace (Z.to_nat (pending st) <? 63)%nat with true
      by (symmetry; apply Nat.ltb_lt; lia).
    replace (Z.to_nat (pending st + 1)) with (S (Z.to_nat (pending st))) by lia.
    rewrite seq_S, map_app. simpl. f_equal.
    + apply map_ext_in. intros k Hk. apply in_seq in Hk.
      unfold slot; simpl. rewrite list_lookup_insert_ne; [reflexivity|].
      destruct Hi as [Hh Ht]. unfold pending, CLI_RX_BUF_SIZE in *.
      intros Heq. apply Z2Nat.inj in Heq; [|lia|apply Z.mod_pos_bound; lia].
      Z.div_mod_to_equations; lia.
    + unfold slot; simpl. f_equal.
      replace (Z.to_nat ((s_cliTail st + Z.of_nat (Z.to_nat (pending st))) mod CLI_RX_BUF_SIZE))
        with (Z.to_nat (s_cliHead st)).
      * rewrite list_lookup_insert_eq; [reflexivity|].
        destruct Hi as [Hh Ht]. unfold CLI_RX_BUF_SIZE in *. lia.
      * f_equal. destruct Hi as [Hh Ht]. unfold pending, CLI_RX_BUF_SIZE in *.
        rewrite Z2Nat.id by lia. Z.div_mod_to_equations; lia.
  - replace (Z.to_nat (pending st) <? 63)%nat with false; [reflexivity|].
    symmetry. apply Nat.ltb_ge.
    assert (~ pending st < 63) by (intros H; apply Hiff in H; discriminate). lia.
Qed.

Lemma unread_pop (c : ascii) (st : cli_t) :
  ring_ok st -> unread (snd (cli_pop c st)) = fifo_step (unread st) Pop.
Proof.
  intros [Hi Hl]. pose proof (cli_pop_pending c st Hi) as Hp.
  pose proof (pending_range st) as Hr.
  simpl. unfold unread at 1. rewrite Hp. clear Hp.
  unfold cli_pop.
  destruct (s_cliHead st =? s_cliTail st) eqn:E.
  - apply Z.eqb_eq in E. simpl.
    unfold unread, pending. rewrite E, Z.sub_diag. reflexivity.
  - apply Z.eqb_neq in E.
    assert (0 < pending st) as Hpos.
    { destruct Hi as [Hh Ht]. unfold pending, CLI_RX_BUF_SIZE in *.
      Z.div_mod_to_equations; lia. }
    unfold unread.
    replace (Z.to_nat (pending st)) with (S (Z.to_nat (pending st - 1))) by lia.
    simpl. rewrite <- seq_shift, map_map.
    apply map_ext. intros k. unfold slot; simpl. rewrite next_index.
    do 2 f_equal. f_equal. unfold CLI_RX_BUF_SIZE.
    rewrite Nat2Z.inj_succ. 
    rewrite Zplus_mod_idemp_l. f_equal. lia.
Qed.

Lemma rb_step_ring_ok (st : cli_t) (op : rb_op) :
  ring_ok st -> ring_ok (rb_step st op).
Proof. destruct op; simpl; auto using cli_push_ring_ok, cli_pop_ring_ok. Qed.

Lemma unread_rb_step (st : cli_t) (op : rb_op) :
  ring_ok st -> unread (rb_step st op) = fifo_step (unread st) op.
Proof. destruct op; simpl rb_step; auto using unread_push, unread_pop. Qed.

(** X7. Under any sequence of pushes and pops the unread bytes of the ring
    buffer are those of a first-in first-out queue of capacity 63 that
    drops on overflow: nothing is overwritten, reordered or duplicated. *)
Theorem X7_ring_buffer_is_a_bounded_fifo (ops : list rb_op) (st : cli_t) :
  ring_ok st ->
  ring_ok (rb_run ops st) /\
  unread (rb_run ops st) = fold_left fifo_step ops (unread st).
Proof.
  unfold rb_run. revert st. induction ops as [|op ops IH]; intros st H;
    cbn [fold_left]; [auto|].
  destruct (IH (rb_step st op) (rb_step_ring_ok st op H)) as [H1 H2].
  split; [exact H1|]. rewrite H2, unread_rb_step by exact H. reflexivity.
Qed.

Lemma unread_nonempty (st : cli_t) :
  ring_ok st -> s_cliHead st <> s_cliTail st ->
  unread st
  = default NUL (s_cliBuf st !! Z.to_nat (s_cliTail st))
    :: tl (unread st).
Proof.
  intros [[Hh Ht] Hl] Hne.
  assert (0 < pending st) as Hpos.
  { unfold pending, CLI_RX_BUF_SIZE in *. Z.div_mod_to_equations; lia. }
  unfold unread.
  replace (Z.to_nat (pending st)) with (S (Z.to_nat (pending st - 1))) by lia.
  cbn [seq map tl]. f_equal. unfold slot.
  cbn [Z.of_nat]. rewrite Z.add_0_r. unfold CLI_RX_BUF_SIZE in *.
  rewrite Z.mod_small by lia. reflexivity.
Qed.

(** X8. A pop on a non-empty buffer returns 1 and the oldest unread byte, and
    leaves the remaining bytes in order. *)
Theorem X8_pop_returns_oldest_byte (c : ascii) (st : cli_t) :
  ring_ok st -> s_cliHead st <> s_cliTail st ->
  exists b rest,
    unread st = b :: rest /\
    fst (cli_pop c st) = (1, b) /\
    unread (snd (cli_pop c st)) = rest.
Proof.
  intros Hok Hne. pose proof (unread_nonempty st Hok Hne) as Hu.
  pose proof (unread_pop c st Hok) as Hp.
  exists (default NUL (s_cliBuf st !! Z.to_nat (s_cliTail st))), (tl (unread st)).
  split; [exact Hu|]. split; [|exact Hp].
  unfold cli_pop. apply Z.eqb_neq in Hne. rewrite Hne. reflexivity.
Qed.

(** The unread bytes after a run are those of the bounded queue, by the
    step lemmas above. *)
Lemma rb_run_fifo (ops : list rb_op) :
  forall st : cli_t, ring_ok st ->
  ring_ok (rb_run ops st) /\
  unread (rb_run ops st) = fold_left fifo_step ops (unread st).
Proof.
  unfold rb_run. induction ops as [|op ops IH]; intros st H;
    cbn [fold_left]; [auto|].
  destruct (IH (rb_step st op) (rb_step_ring_ok st op H)) as [H1 H2].
  split; [exact H1|]. rewrite H2, (unread_rb_step st op H). reflexivity.
Qed.

Lemma cli_push_dropped (c : ascii) (st : cli_t) :
  indices_ok st -> pending st = 63 -> cli_push c st = st.
Proof.
  intros Hok Hp. pose proof (push_succeeds_iff st Hok) as Hiff.
  unfold cli_push. fold (push_succeeds st).
  destruct (push_succeeds st); [|reflexivity].
  assert (pending st < 63) by (apply Hiff; reflexivity). lia.
Qed.

(** C10. On the 64-slot buffer, after any sequence of pushes and pops: the
    indices are inside the array; the bytes stored and not yet read are
    those of a queue that takes a byte only while it holds fewer than 63;
    their number is (head - tail) mod 64 and is at most 63, so it never
    reaches 64; a further [cli_push] stores its byte behind them exactly
    when fewer than 63 are unread, and returns the state untouched exactly
    when 63 are. *)
Theorem C10_ring_holds_at_most_63 (ops : list rb_op) (c : ascii)
  (st : cli_t) :
  ring_ok st ->
  let st' := rb_run ops st in
  ring_ok st' /\
  unread st' = fold_left fifo_step ops (unread st) /\
  Z.of_nat (length (unread st')) = pending st' /\
  0 <= pending st' <= 63 /\
  (unread (cli_push c st') = unread st' ++ [c] <-> pending st' < 63) /\
  (cli_push c st' = st' <-> pending st' = 63).
Proof.
  intros Hok st'. destruct (rb_run_fifo ops st Hok) as [Hok' Hfifo].
  fold st' in Hok', Hfifo.
  pose proof (pending_range st') as Hr.
  pose proof (unread_length st') as Hlen.
  pose proof (unread_push c st' Hok') as Hpush. cbn [fifo_step] in Hpush.
  pose proof (cli_push_pending c st' (proj1 Hok')) as Hpend.
  pose proof (push_succeeds_iff st' (proj1 Hok')) as Hiff.
  split; [exact Hok'|]. split; [exact Hfifo|]. split; [lia|].
  split; [exact Hr|]. split; split.
  - intros Hstored. destruct (Z.eq_dec (pending st') 63) as [E|E]; [|lia].
    rewrite (cli_push_dropped c st' (proj1 Hok') E) in Hstored.
    apply (f_equal length) in Hstored. rewrite length_app in Hstored.
    cbn [length] in Hstored. lia.
  - intros Hlt. rewrite Hpush.
    replace (length (unread st') <? 63)%nat with true
      by (symmetry; apply Nat.ltb_lt; lia).
    reflexivity.
  - intros Hsame. destruct (Z.eq_dec (pending st') 63) as [E|E]; [exact E|].
    assert (pending st' < 63) as Hlt by lia.
    apply Hiff in Hlt. rewrite Hlt, Hsame in Hpend. lia.
  - intros E. apply cli_push_dropped; [exact (proj1 Hok')|exact E].
Qed.

(** C10 at a concrete input: 70 pushes and one pop on the initialised
    buffer, then one more push. *)
Lemma C10_ring_holds_at_most_63_witness :
  ring_ok cli_bound /\
  (let st' := rb_run (replicate 70 (Push "x"%char) ++ [Pop]) cli_bound in
   ring_ok st' /\
   unread st'
   = fold_left fifo_step (replicate 70 (Push "x"%char) ++ [Pop])
       (unread cli_bound) /\
   Z.of_nat (length (unread st')) = pending st' /\
   0 <= pending st' <= 63 /\
   (unread (cli_push "y"%char st') = unread st' ++ ["y"%char]
    <-> pending st' < 63) /\
   (cli_push "y"%char st' = st' <-> pending st' = 63)).
Proof.
  split.
  - unfold ring_ok, indices_ok, CLI_RX_BUF_SIZE. simpl. lia.
  - apply (C10_ring_holds_at_most_63
             (replicate 70 (Push "x"%char) ++ [Pop]) "y"%char cli_bound).
    unfold ring_ok, indices_ok, CLI_RX_BUF_SIZE. simpl. lia.
Defined.

(** The run of the witness: 63 of the 70 bytes were stored, one was read,
    and the next push is stored as the 63rd unread byte. *)
Example ring_after_70_pushes_and_a_pop :
  pending (rb_run (replicate 70 (Push "x"%char) ++ [Pop]) cli_bound) = 62 /\
  pending (cli_push "y"%char
             (rb_run (replicate 70 (Push "x"%char) ++ [Pop]) cli_bound)) = 63 /\
  unread (cli_push "y"%char
            (rb_run (replicate 70 (Push "x"%char) ++ [Pop]) cli_bound))
  = replicate 62 "x"%char ++ ["y"%char].
Proof. repeat split; vm_compute; reflexivity. Qed.

(** ** Further properties of the command line *)

Section CliExtras.
Context {platform : Platform}.

Lemma cli_uart_print_ring (s : list ascii) (b : list ascii) (h t : Z) (e : ecu_t) :
  cli_uart_print s (with_ring b h t e) = with_ring b h t (cli_uart_print s e).
Proof.
  unfold cli_uart_print, with_ring. cbn [cli with_cli set_ring s_cliUart].
  destruct (s_cliUart (cli e)); [|reflexivity].
  destruct (strlen s =? 0); reflexivity.
Qed.

Lemma cli_dispatch_ring (b : list ascii) (h t : Z) (e : ecu_t) :
  cli_dispatch (with_ring b h t e) = with_ring b h t (cli_dispatch e).
Proof.
  unfold cli_dispatch.
  change (line (cli (with_ring b h t e))) with (line (cli e)).
  change (log_from_cli LOG_LEVEL_DEBUG
            (chars "Command: '" ++ cstr (line (cli e)) ++ chars "'")
            (with_ring b h t e))
    with (with_ring b h t
            (log_from_cli LOG_LEVEL_DEBUG
               (chars "Command: '" ++ cstr (line (cli e)) ++ chars "'") e)).
  set (e1 := log_from_cli LOG_LEVEL_DEBUG _ e).
  destruct (_ || _); [apply cli_uart_print_ring|].
  destruct (strncmp _ _ _ =? 0).
  { change (s_vehicle (cli (with_ring b h t e1))) with (s_vehicle (cli e1)).
    destruct (s_vehicle (cli e1)); [apply cli_uart_print_ring|].
    rewrite <- cli_uart_print_ring. reflexivity. }
  destruct (strcmp _ (chars "veh cool-hot") =? 0).
  { change (s_vehicle (cli (with_ring b h t e1))) with (s_vehicle (cli e1)).
    destruct (s_vehicle (cli e1)); [apply cli_uart_print_ring|].
    rewrite <- cli_uart_print_ring. reflexivity. }
  destruct (strcmp _ (chars "log on") =? 0).
  { rewrite <- cli_uart_print_ring. reflexivity. }
  destruct (strcmp _ (chars "log off") =? 0).
  { rewrite <- cli_uart_print_ring. reflexivity. }
  apply cli_uart_print_ring.
Qed.

(** The parser passes the ring buffer through untouched. *)
Lemma cli_handle_char_ring (c : ascii) (b : list ascii) (h t : Z) (e : ecu_t) :
  cli_handle_char c (with_ring b h t e) = with_ring b h t (cli_handle_char c e).
Proof.
  unfold cli_handle_char.
  change (idx (cli (with_ring b h t e))) with (idx (cli e)).
  change (line (cli (with_ring b h t e))) with (line (cli e)).
  change (s_cliUart (cli (with_ring b h t e))) with (s_cliUart (cli e)).
  destruct (is_eol c).
  - destruct (idx (cli e) =? 0); [apply cli_uart_print_ring|].
    rewrite <- cli_dispatch_ring. reflexivity.
  - destruct (idx (cli e) <? LINE_SIZE - 1); [|reflexivity].
    destruct (s_cliUart (cli e)); reflexivity.
Qed.

Lemma cli_dispatch_effect (e : ecu_t) :
  cli (cli_dispatch e) = cli e /\
  logger (cli_dispatch e) = logger e /\
  (vehicle (cli_dispatch e) = vehicle e \/
   (exists v, vehicle (cli_dispatch e)
              = Vehicle_SetTargetSpeed PTR v (vehicle e)) \/
   vehicle (cli_dispatch e)
   = Vehicle_Force PTR (speed_kph (vehicle e)) (engine_rpm (vehicle e)) c115
       (vehicle e)).
Proof.
  unfold cli_dispatch.
  set (e1 := log_from_cli LOG_LEVEL_DEBUG _ e).
  assert (Hc : cli e1 = cli e) by reflexivity.
  assert (Hl : logger e1 = logger e) by reflexivity.
  assert (Hv : vehicle e1 = vehicle e) by reflexivity.
  clearbody e1.
  repeat match goal with
         | |- context [if ?b then _ else _] => destruct b
         | |- context [match s_vehicle ?x with _ => _ end] =>
             destruct (s_vehicle x)
         end;
    match goal with
    | |- context [cli_uart_print ?s ?x] =>
        destruct (cli_uart_print_frame s x) as (-> & -> & -> & _)
    end;
    cbn [cli logger vehicle log_from_cli with_wire with_vehicle
         with_can_logging];
    rewrite ?Hc, ?Hl, ?Hv; (split; [reflexivity|split; [reflexivity|]]);
    eauto.
Qed.

Lemma cli_handle_char_effect (c : ascii) (e : ecu_t) :
  logger (cli_handle_char c e) = logger e /\
  s_cliUart (cli (cli_handle_char c e)) = s_cliUart (cli e) /\
  s_vehicle (cli (cli_handle_char c e)) = s_vehicle (cli e) /\
  (vehicle (cli_handle_char c e) = vehicle e \/
   (exists v, vehicle (cli_handle_char c e)
              = Vehicle_SetTargetSpeed PTR v (vehicle e)) \/
   vehicle (cli_handle_char c e)
   = Vehicle_Force PTR (speed_kph (vehicle e)) (engine_rpm (vehicle e)) c115
       (vehicle e)).
Proof.
  unfold cli_handle_char. destruct (is_eol c).
  - destruct (idx (cli e) =? 0).
    + destruct (cli_uart_print_frame (crlf ++ chars "> ") e) as (-> & -> & -> & _).
      auto.
    + match goal with |- context [cli_dispatch ?x] =>
        destruct (cli_dispatch_effect x) as (-> & -> & Hv) end.
      cbn [cli logger vehicle with_cli set_line s_cliUart s_vehicle] in *.
      auto.
  - destruct (idx (cli e) <? LINE_SIZE - 1); [|auto].
    destruct (s_cliUart (cli e)) eqn:E; cbn; rewrite ?E; auto.
Qed.

(** The accumulator stays inside its array. *)
Lemma cli_handle_char_line_bounds (c : ascii) (e : ecu_t) :
  0 <= idx (cli e) <= LINE_SIZE - 1 -> length (line (cli e)) = 32%nat ->
  0 <= idx (cli (cli_handle_char c e)) <= LINE_SIZE - 1 /\
  length (line (cli (cli_handle_char c e))) = 32%nat.
Proof.
  intros Hi Hl. unfold cli_handle_char. unfold LINE_SIZE in *.
  destruct (is_eol c).
  - destruct (idx (cli e) =? 0).
    + destruct (cli_uart_print_frame (crlf ++ chars "> ") e) as (-> & _). auto.
    + match goal with |- context [cli_dispatch ?x] =>
        destruct (cli_dispatch_effect x) as (-> & _) end.
      cbn [cli with_cli set_line idx line]. rewrite length_insert. split; [lia|exact Hl].
  - destruct (idx (cli e) <? 32 - 1) eqn:E; [|auto].
    apply Z.ltb_lt in E.
    destruct (s_cliUart (cli e));
      cbn [cli with_cli with_wire set_line idx line];
      rewrite length_insert, Z.mod_small by lia; (split; [lia|exact Hl]).
Qed.

(** X9. Whatever bytes are fed to [cli_handle_char], [idx] stays within
    0..31 and [line] keeps its 32 bytes: every store, the terminator
    included, is inside the array. *)
Theorem X9_line_accumulator_never_overflows (text : list ascii) (e : ecu_t) :
  0 <= idx (cli e) <= LINE_SIZE - 1 -> length (line (cli e)) = 32%nat ->
  0 <= idx (cli (feed text e)) <= LINE_SIZE - 1 /\
  length (line (cli (feed text e))) = 32%nat.
Proof.
  unfold feed. revert e. induction text as [|c text IH]; intros e Hi Hl;
    cbn [fold_left]; [auto|].
  destruct (cli_handle_char_line_bounds c e Hi Hl) as [Hi' Hl'].
  apply IH; assumption.
Qed.

Lemma cli_handle_char_rpm (c : ascii) (e : ecu_t) :
  rpm_ok (engine_rpm (vehicle e)) = true ->
  engine_rpm (vehicle (cli_handle_char c e)) = engine_rpm (vehicle e).
Proof.
  intros Hr. destruct (cli_handle_char_effect c e) as (_ & _ & _ & [H | [[v H] | H]]);
    rewrite H; [reflexivity|reflexivity|].
  unfold rpm_ok in Hr. apply andb_true_iff in Hr as [H1 H2].
  apply Z.leb_le in H1, H2.
  rewrite Vehicle_Force_fields by (unfold UINT16_MAX; lia).
  cbn [engine_rpm]. unfold clamp_rpm. lia.
Qed.

(** X10. No text typed at the terminal changes the engine rpm of a state
    whose rpm is within [600, 6000]. *)
Theorem X10_no_terminal_input_changes_rpm (text : list ascii) (e : ecu_t) :
  rpm_ok (engine_rpm (vehicle e)) = true ->
  engine_rpm (vehicle (feed text e)) = engine_rpm (vehicle e).
Proof.
  unfold feed. revert e. induction text as [|c text IH]; intros e Hr;
    cbn [fold_left]; [reflexivity|].
  pose proof (cli_handle_char_rpm c e Hr) as H.
  rewrite IH by (rewrite H; exact Hr). exact H.
Qed.
End CliExtras.

Lemma unread_ext (st1 st2 : cli_t) :
  s_cliBuf st1 = s_cliBuf st2 -> s_cliHead st1 = s_cliHead st2 ->
  s_cliTail st1 = s_cliTail st2 -> unread st1 = unread st2.
Proof.
  intros Hb Hh Ht. unfold unread, pending. rewrite Hh, Ht.
  apply map_ext. intros k. unfold slot. rewrite Hb, Ht. reflexivity.
Qed.

Lemma with_ring_same (e : ecu_t) :
  with_ring (s_cliBuf (cli e)) (s_cliHead (cli e)) (s_cliTail (cli e)) e = e.
Proof. destruct e as [[] ? ? ? ?]. reflexivity. Qed.

Lemma with_ring_with_ring b h t b' h' t' (e : ecu_t) :
  with_ring b h t (with_ring b' h' t' e) = with_ring b h t e.
Proof. reflexivity. Qed.

Section TaskExtras.
Context {platform : Platform}.

Lemma drain_feeds (fuel : nat) :
  forall (c : ascii) (e : ecu_t),
  ring_ok (cli e) -> (Z.to_nat (pending (cli e)) < fuel)%nat ->
  drain fuel c e
  = Some (feed (unread (cli e))
            (with_ring (s_cliBuf (cli e)) (s_cliHead (cli e))
               (s_cliHead (cli e)) e)).
Proof.
  induction fuel as [|k IH]; intros c e Hok Hfuel; [lia|].
  cbn [drain]. unfold cli_pop.
  destruct (s_cliHead (cli e) =? s_cliTail (cli e)) eqn:E.
  - apply Z.eqb_eq in E. cbn [Z.eqb].
    assert (unread (cli e) = []) as ->.
    { unfold unread, pending. rewrite E, Z.sub_diag. reflexivity. }
    cbn [feed fold_left]. rewrite E at 2. rewrite with_ring_same. reflexivity.
  - apply Z.eqb_neq in E. cbn [Z.eqb].
    pose proof (unread_nonempty (cli e) Hok E) as Hu.
    pose proof (unread_pop c (cli e) Hok) as Hp.
    pose proof (cli_pop_ring_ok c (cli e) Hok) as Hok'.
    pose proof (cli_pop_pending c (cli e) (proj1 Hok)) as Hpend.
    unfold cli_pop in Hp, Hok', Hpend.
    apply Z.eqb_neq in E. rewrite E in Hp, Hok', Hpend. cbn [snd fifo_step] in *.
    set (b := default NUL (s_cliBuf (cli e) !! Z.to_nat (s_cliTail (cli e)))) in *.
    set (t' := ((s_cliTail (cli e) + 1) mod CLI_RX_BUF_SIZE) mod 256) in *.
    change (with_cli (set_ring (s_cliBuf (cli e)) (s_cliHead (cli e)) t' (cli e)) e)
      with (with_ring (s_cliBuf (cli e)) (s_cliHead (cli e)) t' e).
    rewrite cli_handle_char_ring.
    rewrite IH.
    + cbn [cli with_ring with_cli set_ring s_cliBuf s_cliHead s_cliTail].
      rewrite with_ring_with_ring, <- cli_handle_char_ring.
      rewrite Hu. cbn [feed fold_left]. f_equal. f_equal.
      rewrite <- Hp. cbn [tl]. apply unread_ext; reflexivity.
    + destruct Hok' as [Hi Hl]. split; [exact Hi|exact Hl].
    + assert (pending (cli (with_ring (s_cliBuf (cli e)) (s_cliHead (cli e)) t'
                              (cli_handle_char b e))) = pending (cli e) - 1) as ->
        by exact Hpend.
      pose proof (pending_range (cli e)).
      assert (0 < pending (cli e)).
      { destruct Hok as [[Hh Ht] _]. apply Z.eqb_neq in E.
        unfold pending, CLI_RX_BUF_SIZE in *. Z.div_mod_to_equations; lia. }
      lia.
Qed.

End TaskExtras.

Section MoreCli.
Context {platform : Platform}.

Lemma dispatch_veh_speed (e : ecu_t) (arg : list ascii) :
  line (cli e) = chars "veh speed " ++ arg ->
  s_vehicle (cli e) = PTR ->
  vehicle (cli_dispatch e)
  = Vehicle_SetTargetSpeed PTR (atof arg) (vehicle e).
Proof.
  intros Hl Hv. unfold cli_dispatch.
  cbn [line cli log_from_cli with_wire]. rewrite Hl.
  replace (strcmp _ (chars "h") =? 0) with false by (vm_compute; reflexivity).
  replace (strcmp _ (chars "help") =? 0) with false by (vm_compute; reflexivity).
  replace (strncmp _ (chars "veh speed ") 10 =? 0) with true
    by (vm_compute; reflexivity).
  cbn [orb]. rewrite Hv.
  rewrite (proj1 (proj2 (cli_uart_print_frame _ _))). reflexivity.
Qed.

(** X12. The line "veh speed " followed by any text of at most 21 bytes
    stores the clamped value [atof] gives for the text as it lies in the
    buffer, and leaves rpm and temperature alone; nothing is rejected. *)
Theorem X12_veh_speed_applies_clamped_atof (arg : list ascii) (eol : ascii)
  (e : ecu_t) :
  eol = CR \/ eol = LF ->
  Forall (fun c => is_eol c = false) arg ->
  (length arg <= 21)%nat ->
  s_vehicle (cli e) = PTR ->
  idx (cli e) = 0 ->
  length (line (cli e)) = 32%nat ->
  let buffer_tail := arg ++ NUL :: drop (11 + length arg) (line (cli e)) in
  vehicle (feed (chars "veh speed " ++ arg ++ [eol]) e) =
  {| speed_kph := clamp_f (atof buffer_tail) zero c200;
     engine_rpm := engine_rpm (vehicle e);
     coolant_temp_c := coolant_temp_c (vehicle e) |}.
Proof.
  intros Heol Harg Hlen Hv Hi Hl buffer_tail.
  rewrite app_assoc, feed_snoc.
  rewrite feed_accumulates;
    [|apply Forall_app; split; [repeat constructor|exact Harg]
     |lia
     |rewrite Hi, length_app; unfold LINE_SIZE; simpl; lia
     |exact Hl].
  rewrite Hi. rewrite length_app. cbn [Z.to_nat Z.add].
  rewrite cli_handle_char_eol;
    [|destruct Heol; subst; reflexivity
     |cbn [cli with_cli with_wire set_line idx]; simpl length; lia].
  rewrite (dispatch_veh_speed _ buffer_tail); [reflexivity| |exact Hv].
  cbn [cli with_cli with_wire set_line line idx].
  unfold typed_line. rewrite Z.add_0_l, Nat2Z.id.
  change (Z.to_nat 0) with 0%nat. rewrite take_0, Nat.add_0_l, app_nil_l.
  rewrite <- (length_app (chars "veh speed ") arg).
  rewrite insert_app_r_alt by lia. rewrite Nat.sub_diag.
  rewrite length_app.
  unfold buffer_tail. rewrite <- app_assoc. f_equal. f_equal.
  assert (10 + length arg < length (line (cli e)))%nat as Hlt by (rewrite Hl; lia).
  change (length (chars "veh speed ")) with 10%nat.
  destruct (drop (10 + length arg) (line (cli e))) as [|x rest] eqn:E.
  - apply (f_equal length) in E. rewrite length_drop in E. simpl in E. lia.
  - cbn [list_insert insert]. change (<[0%nat:=NUL]> (x :: rest)) with (NUL :: rest).
    f_equal.
    change (11 + length arg)%nat with (1 + (10 + length arg))%nat.
    rewrite (Nat.add_comm 1), <- drop_drop, E. reflexivity.
Qed.
End MoreCli.

Lemma receive_is_push (c : ascii) (st : cli_t) :
  receive c st = cli_push c (set_rxByte c st).
Proof.
  unfold receive, HAL_UART_RxCpltCallback. cbn [s_cliUart set_rxByte].
  rewrite bool_decide_eq_true_2 by reflexivity. reflexivity.
Qed.

Lemma receive_unread (c : ascii) (st : cli_t) :
  ring_ok st ->
  ring_ok (receive c st) /\
  unread (receive c st) = fifo_step (unread st) (Push c).
Proof.
  intros Hok. rewrite receive_is_push.
  assert (ring_ok (set_rxByte c st)) as Hok' by exact Hok.
  split; [apply cli_push_ring_ok, Hok'|].
  rewrite unread_push by exact Hok'.
  rewrite (unread_ext (set_rxByte c st) st) by reflexivity. reflexivity.
Qed.

Lemma fifo_pushes (bytes : list ascii) :
  forall q : list ascii, (length q <= 63)%nat ->
  fold_left fifo_step (map Push bytes) q = q ++ take (63 - length q) bytes.
Proof.
  induction bytes as [|c bytes IH]; intros q Hq; cbn [map fold_left].
  - rewrite take_nil, app_nil_r. reflexivity.
  - cbn [fifo_step]. destruct (length q <? 63)%nat eqn:E.
    + apply Nat.ltb_lt in E. rewrite IH by (rewrite length_app; simpl; lia).
      rewrite length_app. cbn [length].
      replace (63 - length q)%nat with (S (63 - (length q + 1))) by lia.
      cbn [take]. rewrite <- app_assoc. reflexivity.
    + apply Nat.ltb_ge in E. rewrite IH by exact Hq.
      replace (63 - length q)%nat with 0%nat by lia. reflexivity.
Qed.

(** X13. Bytes received by the interrupt handler are queued in arrival
    order behind those already unread, up to 63 unread bytes in all; the
    rest of the burst is dropped. *)
Theorem X13_received_bytes_queue_in_order (bytes : list ascii) (st : cli_t) :
  ring_ok st ->
  ring_ok (receive_all bytes st) /\
  unread (receive_all bytes st)
  = unread st ++ take (Z.to_nat (63 - pending st)) bytes.
Proof.
  intros Hok.
  assert (ring_ok (receive_all bytes st) /\
          unread (receive_all bytes st)
          = fold_left fifo_step (map Push bytes) (unread st)) as [H1 H2].
  { unfold receive_all. revert st Hok.
    induction bytes as [|c bytes IH]; intros st Hok; cbn [map fold_left]; [auto|].
    destruct (receive_unread c st Hok) as [Hok' Hu].
    destruct (IH _ Hok') as [A B]. split; [exact A|]. rewrite B, Hu. reflexivity. }
  split; [exact H1|]. rewrite H2.
  pose proof (pending_range st). pose proof (unread_length st) as Hl.
  rewrite fifo_pushes by lia. rewrite Hl. f_equal. f_equal. lia.
Qed.

Section InitExtras.
Context {platform : Platform}.

Lemma cli_update_dashboard_frame (e : ecu_t) :
  cli (cli_update_dashboard e) = cli e /\
  vehicle (cli_update_dashboard e) = vehicle e /\
  logger (cli_update_dashboard e) = logger e /\
  can_logging (cli_update_dashboard e) = can_logging e.
Proof.
  unfold cli_update_dashboard.
  destruct (s_cliUart (cli e)); [|auto]. destruct (s_vehicle (cli e)); [auto|].
  repeat match goal with
  | |- context [cli_uart_print ?s ?x] =>
      destruct (cli_uart_print_frame s x) as (-> & -> & -> & ->)
  end. auto.
Qed.

(** X14. [CLI_IF_Init] binds the UART and the vehicle, resets both ring
    indices to 0 and so discards whatever was unread, leaves the vehicle
    state alone, and transmits nothing when the UART handle is NULL. *)
Theorem X14_init_empties_ring_and_binds (huart : UART_Handle_ptr)
  (vp : VehicleState_ptr) (e : ecu_t) :
  let e' := CLI_IF_Init huart vp e in
  s_cliUart (cli e') = huart /\
  s_vehicle (cli e') = vp /\
  s_cliHead (cli e') = 0 /\
  s_cliTail (cli e') = 0 /\
  indices_ok (cli e') /\
  unread (cli e') = [] /\
  vehicle e' = vehicle e /\
  wire (CLI_IF_Init None vp e) = wire e.
Proof.
  unfold CLI_IF_Init.
  set (st := {| s_cliUart := huart; s_vehicle := vp;
                s_rxByte := s_rxByte (cli e); s_cliBuf := s_cliBuf (cli e);
                s_cliHead := 0; s_cliTail := 0; line := line (cli e);
                idx := idx (cli e) |}).
  assert (Hst : indices_ok st /\ unread st = []).
  { split; [unfold indices_ok, CLI_RX_BUF_SIZE; simpl; lia|reflexivity]. }
  destruct huart as [u|].
  - cbn zeta. cbn [cli vehicle log_from_cli with_wire].
    destruct (cli_uart_print_frame
      (crlf ++ chars "CLI ready. Type 'help' and press Enter." ++ crlf ++ chars "> ")
      (cli_update_dashboard
         (cli_uart_print (ESC :: chars "[2J" ++ ESC :: chars "[H") (with_cli st e))))
      as (-> & -> & _).
    destruct (cli_update_dashboard_frame
      (cli_uart_print (ESC :: chars "[2J" ++ ESC :: chars "[H") (with_cli st e)))
      as (-> & -> & _).
    destruct (cli_uart_print_frame (ESC :: chars "[2J" ++ ESC :: chars "[H") (with_cli st e))
      as (-> & -> & _).
    cbn [cli vehicle with_cli]. destruct Hst as [H H0].
    split; [reflexivity|]. split; [reflexivity|].
    split; [reflexivity|]. split; [reflexivity|]. split; [exact H|].
    split; [exact H0|]. split; reflexivity.
  - cbn zeta. cbn [cli vehicle with_cli wire]. destruct Hst as [H H0].
    split; [reflexivity|]. split; [reflexivity|].
    split; [reflexivity|]. split; [reflexivity|]. split; [exact H|].
    split; [exact H0|]. split; reflexivity.
Qed.
End InitExtras.

Lemma cstr_length_le (s : list ascii) : (length (cstr s) <= length s)%nat.
Proof. induction s as [|c s IH]; simpl; [lia|]. destruct (Ascii.eqb c NUL); simpl; lia. Qed.

Section Dash.
Context {platform : Platform}.

Lemma dashboard_buf_strlen (v : VehicleState_t) :
  0 < strlen (snprintf_buf 128 (dashboard_text v)) <= 128.
Proof.
  unfold strlen. split.
  - unfold snprintf_buf, dashboard_text. cbn. lia.
  - pose proof (cstr_length_le (snprintf_buf 128 (dashboard_text v))) as H.
    unfold snprintf_buf in *. rewrite length_app, length_take in H. cbn [length] in H.
    lia.
Qed.

Lemma cli_uart_print_bound (s : list ascii) (u : nat) (e : ecu_t) :
  s_cliUart (cli e) = Some u -> 0 < strlen s < 65536 ->
  cli_uart_print s e
  = with_wire (wire e ++ [{| tx_uart := u;
                             tx_bytes := take (Z.to_nat (strlen s)) s |}]) e.
Proof.
  intros Hu Hs. unfold cli_uart_print. rewrite Hu.
  replace (strlen s =? 0) with false by (symmetry; apply Z.eqb_neq; lia).
  rewrite Z.mod_small by lia. reflexivity.
Qed.

(** X20. With UART and vehicle bound, a dashboard redraw adds exactly five
    transmits (save cursor, home, the status text, clear to end of line,
    restore cursor) and changes nothing else. *)
Theorem X20_dashboard_redraw_is_bracketed (uart : nat) (e : ecu_t) :
  s_cliUart (cli e) = Some uart -> s_vehicle (cli e) = PTR ->
  let buf := snprintf_buf 128 (dashboard_text (vehicle e)) in
  cli_update_dashboard e
  = with_wire
      (wire e ++
       [{| tx_uart := uart; tx_bytes := ESC :: chars "[s" |};
        {| tx_uart := uart; tx_bytes := ESC :: chars "[H" |};
        {| tx_uart := uart; tx_bytes := take (Z.to_nat (strlen buf)) buf |};
        {| tx_uart := uart; tx_bytes := ESC :: chars "[K" |};
        {| tx_uart := uart; tx_bytes := ESC :: chars "[u" |}]) e.
Proof.
  intros Hu Hv buf. unfold cli_update_dashboard. rewrite Hu, Hv. fold buf.
  pose proof (dashboard_buf_strlen (vehicle e)) as Hlen. fold buf in Hlen.
  rewrite (cli_uart_print_bound (ESC :: chars "[s") uart e Hu)
    by (vm_compute; split; reflexivity).
  rewrite (cli_uart_print_bound (ESC :: chars "[H") uart)
    by (exact Hu || (vm_compute; split; reflexivity)).
  rewrite (cli_uart_print_bound buf uart) by (exact Hu || lia).
  rewrite (cli_uart_print_bound (ESC :: chars "[K") uart)
    by (exact Hu || (vm_compute; split; reflexivity)).
  rewrite (cli_uart_print_bound (ESC :: chars "[u") uart)
    by (exact Hu || (vm_compute; split; reflexivity)).
  unfold with_wire. cbn [cli vehicle logger can_logging wire].
  rewrite <- !app_assoc. reflexivity.
Qed.
End Dash.

(** ** Further properties of log.c and of the bootloader *)

Lemma log_line_length (level : log_level_t) (module : option (list ascii))
  (full : list ascii) :
  (0 < length (log_line level module full) <= 160)%nat.
Proof.
  unfold log_line.
  set (out := format_line _ _ _).
  pose proof (format_line_nonempty (levelChar level)
     (match module with None => chars "GEN" | Some m => m end)
     (snprintf_buf 128 full)) as Hpos. fold out in Hpos.
  destruct (length out <? 160)%nat eqn:E.
  - apply Nat.ltb_lt in E. lia.
  - apply Nat.ltb_ge in E. rewrite length_app, length_take. cbn [length]. lia.
Qed.

(** X15. [Log_Write] never alters earlier output; it adds at most one
    transmit, on the log UART, of 1 to 160 bytes, also when formatting
    fails or the tag is NULL. *)
Theorem X15_log_write_appends_at_most_one_bounded_transmit (lg : log_t)
  (level : log_level_t) (module expansion : option (list ascii))
  (wire : list uart_tx) :
  exists added,
    Log_Write lg level module expansion wire = wire ++ added /\
    (length added <= 1)%nat /\
    Forall (fun t => Some (tx_uart t) = s_logUart lg /\
                     (0 < length (tx_bytes t) <= 160)%nat) added.
Proof.
  destruct expansion as [full|].
  - rewrite Log_Write_eq. destruct (s_logLevel lg <? level).
    + exists []. rewrite app_nil_r. repeat split; [simpl; lia|constructor].
    + destruct (s_logUart lg) as [u|].
      * eexists. split; [reflexivity|]. split; [simpl; lia|].
        constructor; [|constructor]. split; [reflexivity|apply log_line_length].
      * exists []. rewrite app_nil_r. repeat split; [simpl; lia|constructor].
  - exists []. rewrite app_nil_r. split; [|split; [simpl; lia|constructor]].
    unfold Log_Write. destruct (s_logLevel lg <? level); [reflexivity|].
    destruct (s_logUart lg); reflexivity.
Qed.

Lemma snprintf_buf_take (n : nat) (s : list ascii) :
  snprintf_buf (S n) (take n s) = snprintf_buf (S n) s.
Proof.
  unfold snprintf_buf. replace (S n - 1)%nat with n by lia.
  rewrite take_take, Nat.min_id. reflexivity.
Qed.

(** X16. Only the first 127 bytes of an expanded message reach the output. *)
Theorem X16_log_message_is_cut_at_127_bytes (lg : log_t)
  (level : log_level_t) (module : option (list ascii)) (full : list ascii)
  (wire : list uart_tx) :
  Log_Write lg level module (Some full) wire
  = Log_Write lg level module (Some (take 127 full)) wire.
Proof.
  unfold Log_Write. rewrite (snprintf_buf_take 127 full). reflexivity.
Qed.

(** X17. When the formatted line has 160 bytes or more (the message being
    cut to 127 bytes, this takes a module tag of 25 bytes or more), the
    transmit is its first 159 bytes followed by the terminating NUL of
    [outBuf]: the line end is lost and a NUL goes out. *)
Theorem X17_overlong_log_line_ends_in_NUL (lg : log_t) (uart : nat)
  (level : log_level_t) (module full : list ascii) (wire : list uart_tx) :
  s_logUart lg = Some uart ->
  level <= s_logLevel lg ->
  (160 <= length (format_line (levelChar level) module (snprintf_buf 128 full)))%nat ->
  Log_Write lg level (Some module) (Some full) wire
  = wire ++ [{| tx_uart := uart;
                tx_bytes :=
                  take 159 (format_line (levelChar level) module
                              (snprintf_buf 128 full)) ++ [NUL] |}].
Proof.
  intros Hu Hl Hlen. rewrite Log_Write_eq, Hu.
  replace (s_logLevel lg <? level) with false by (symmetry; apply Z.ltb_ge; lia).
  unfold log_line.
  replace (length _ <? 160)%nat with false by (symmetry; apply Nat.ltb_ge; exact Hlen).
  reflexivity.
Qed.


Section TypedText.
Context {platform : Platform}.

(** X19. A text without terminators that fits the accumulator is stored at
    [idx] onwards, [idx] advances by its length, each byte is echoed once,
    in order, on the CLI UART if one is bound, and the vehicle is not
    touched. *)
Theorem X19_typed_text_is_stored_and_echoed (text : list ascii) (e : ecu_t) :
  Forall (fun c => is_eol c = false) text ->
  0 <= idx (cli e) ->
  idx (cli e) + Z.of_nat (length text) <= LINE_SIZE - 1 ->
  length (line (cli e)) = 32%nat ->
  line (cli (feed text e))
  = typed_line (line (cli e)) (Z.to_nat (idx (cli e))) text /\
  idx (cli (feed text e)) = idx (cli e) + Z.of_nat (length text) /\
  wire (feed text e) = wire e ++ echoes (s_cliUart (cli e)) text /\
  vehicle (feed text e) = vehicle e.
Proof.
  intros H1 H2 H3 H4. rewrite (feed_accumulates text e H1 H2 H3 H4).
  repeat split.
Qed.

End TypedText.

(** ** The further properties at concrete inputs *)

Ltac by_computation :=
  vm_compute; first [reflexivity | intro; discriminate].

Ltac ring_ok_by_computation :=
  unfold ring_ok, indices_ok, CLI_RX_BUF_SIZE; repeat split; by_computation.

Lemma X1_update_repairs_rpm_witness :
  leb tick zero = false /\
  rpm_ok (engine_rpm (Vehicle_Update PTR tick corrupted)) = true.
Proof.
  split; [reflexivity|].
  apply (X1_update_repairs_rpm tick corrupted). reflexivity.
Defined.

Lemma X2_nan_speed_is_never_repaired_witness :
  speed_kph corrupted = nan /\
  speed_kph (run_updates PTR [tick; tick] corrupted) = nan.
Proof.
  split; [reflexivity|].
  apply (X2_nan_speed_is_never_repaired PTR [tick; tick] corrupted).
  reflexivity.
Defined.

Lemma X3_initialised_model_stays_in_bounds_witness :
  state_ok
    (run_calls PTR
       (CallInit ::
        [CallUpdate tick; CallSetTargetSpeed (of_Z 250);
         CallForce (of_Z 50) 7000 (of_Z (-40)); CallUpdate nan])
       corrupted) = true.
Proof.
  apply (X3_initialised_model_stays_in_bounds
           [CallUpdate tick; CallSetTargetSpeed (of_Z 250);
            CallForce (of_Z 50) 7000 (of_Z (-40)); CallUpdate nan]
           corrupted).
  vm_compute. reflexivity.
Defined.

Lemma X4_force_rpm_is_integer_clamp_witness :
  0 <= 65535 <= UINT16_MAX /\
  engine_rpm (Vehicle_Force PTR zero 65535 c20 cruising)
  = if 65535 <? 600 then 600 else if 6000 <? 65535 then 6000 else 65535.
Proof.
  split; [unfold UINT16_MAX; lia|].
  apply (X4_force_rpm_is_integer_clamp zero 65535 c20 cruising).
  unfold UINT16_MAX. lia.
Defined.

Lemma X5_set_target_speed_keeps_valid_input_witness :
  speed_kph (Vehicle_SetTargetSpeed PTR (of_Z 100) cruising) = of_Z 100 /\
  speed_kph (Vehicle_SetTargetSpeed PTR (of_Z (-5)) cruising) = zero /\
  speed_kph (Vehicle_SetTargetSpeed PTR (S754_infinity false) cruising) = c200 /\
  speed_ok (speed_kph (Vehicle_SetTargetSpeed PTR (of_Z 250) cruising)) = true.
Proof.
  split; [|split; [|split]].
  - apply (X5_set_target_speed_keeps_valid_input (of_Z 100) cruising).
    reflexivity.
  - apply (X5_set_target_speed_keeps_valid_input (of_Z (-5)) cruising).
    reflexivity.
  - apply (X5_set_target_speed_keeps_valid_input (S754_infinity false) cruising).
    reflexivity.
  - apply (X5_set_target_speed_keeps_valid_input (of_Z 250) cruising).
    reflexivity.
Defined.

Lemma X6_idle_vehicle_stays_idle_witness :
  speed_kph (run_updates PTR [tick; tick; tick] init_state) = zero /\
  engine_rpm (run_updates PTR [tick; tick; tick] init_state) = 800.
Proof.
  apply (X6_idle_vehicle_stays_idle PTR [tick; tick; tick] init_state);
    reflexivity.
Defined.

Lemma X7_ring_buffer_is_a_bounded_fifo_witness :
  ring_ok (rb_run [Push "a"%char; Push "b"%char; Pop] cli_bound) /\
  unread (rb_run [Push "a"%char; Push "b"%char; Pop] cli_bound)
  = fold_left fifo_step [Push "a"%char; Push "b"%char; Pop] (unread cli_bound).
Proof.
  apply (X7_ring_buffer_is_a_bounded_fifo
           [Push "a"%char; Push "b"%char; Pop] cli_bound).
  ring_ok_by_computation.
Defined.

Lemma X8_pop_returns_oldest_byte_witness :
  exists b rest,
    unread ring_full = b :: rest /\
    fst (cli_pop NUL ring_full) = (1, b) /\
    unread (snd (cli_pop NUL ring_full)) = rest.
Proof.
  apply (X8_pop_returns_oldest_byte NUL ring_full).
  - ring_ok_by_computation.
  - by_computation.
Defined.

Lemma X9_line_accumulator_never_overflows_witness :
  0 <= idx (cli (feed (replicate 40 "z"%char) ecu_cruising)) <= LINE_SIZE - 1 /\
  length (line (cli (feed (replicate 40 "z"%char) ecu_cruising))) = 32%nat.
Proof.
  apply (X9_line_accumulator_never_overflows (replicate 40 "z"%char)
           ecu_cruising).
  - unfold LINE_SIZE. simpl. lia.
  - reflexivity.
Defined.

Lemma X10_no_terminal_input_changes_rpm_witness :
  engine_rpm (vehicle (feed (chars "veh cool-hot" ++ [CR]) ecu_cruising))
  = engine_rpm (vehicle ecu_cruising).
Proof.
  apply (X10_no_terminal_input_changes_rpm (chars "veh cool-hot" ++ [CR])
           ecu_cruising).
  reflexivity.
Defined.


Lemma X12_veh_speed_applies_clamped_atof_witness :
  let buffer_tail :=
    chars "42.5" ++ NUL :: drop (11 + length (chars "42.5"))
                             (line (cli ecu_cruising)) in
  vehicle (feed (chars "veh speed " ++ chars "42.5" ++ [CR]) ecu_cruising) =
  {| speed_kph := clamp_f (atof buffer_tail) zero c200;
     engine_rpm := engine_rpm (vehicle ecu_cruising);
     coolant_temp_c := coolant_temp_c (vehicle ecu_cruising) |}.
Proof.
  apply (X12_veh_speed_applies_clamped_atof (chars "42.5") CR ecu_cruising).
  - left. reflexivity.
  - repeat constructor.
  - simpl. lia.
  - reflexivity.
  - reflexivity.
  - reflexivity.
Defined.

Lemma X13_received_bytes_queue_in_order_witness :
  ring_ok (receive_all (chars "hi") cli_bound) /\
  unread (receive_all (chars "hi") cli_bound)
  = unread cli_bound ++ take (Z.to_nat (63 - pending cli_bound)) (chars "hi").
Proof.
  apply (X13_received_bytes_queue_in_order (chars "hi") cli_bound).
  ring_ok_by_computation.
Defined.

Lemma X17_overlong_log_line_ends_in_NUL_witness :
  Log_Write log_bound LOG_LEVEL_WARN (Some long_tag) (Some long_message) []
  = [] ++ [{| tx_uart := 2%nat;
              tx_bytes :=
                take 159 (format_line (levelChar LOG_LEVEL_WARN) long_tag
                            (snprintf_buf 128 long_message)) ++ [NUL] |}].
Proof.
  apply (X17_overlong_log_line_ends_in_NUL log_bound 2%nat LOG_LEVEL_WARN
           long_tag long_message []).
  - reflexivity.
  - vm_compute. intro. discriminate.
  - apply Nat.leb_le. vm_compute. reflexivity.
Defined.


Lemma X19_typed_text_is_stored_and_echoed_witness :
  line (cli (feed (chars "help") ecu_cruising))
  = typed_line (line (cli ecu_cruising)) (Z.to_nat (idx (cli ecu_cruising)))
      (chars "help") /\
  idx (cli (feed (chars "help") ecu_cruising))
  = idx (cli ecu_cruising) + Z.of_nat (length (chars "help")) /\
  wire (feed (chars "help") ecu_cruising)
  = wire ecu_cruising ++ echoes (s_cliUart (cli ecu_cruising)) (chars "help") /\
  vehicle (feed (chars "help") ecu_cruising) = vehicle ecu_cruising.
Proof.
  apply (X19_typed_text_is_stored_and_echoed (chars "help") ecu_cruising).
  - repeat constructor.
  - simpl. lia.
  - unfold LINE_SIZE. simpl. lia.
  - reflexivity.
Defined.

Lemma X20_dashboard_redraw_is_bracketed_witness :
  let buf := snprintf_buf 128 (dashboard_text (vehicle ecu_cruising)) in
  cli_update_dashboard ecu_cruising
  = with_wire
      (wire ecu_cruising ++
       [{| tx_uart := 2%nat; tx_bytes := ESC :: chars "[s" |};
        {| tx_uart := 2%nat; tx_bytes := ESC :: chars "[H" |};
        {| tx_uart := 2%nat; tx_bytes := take (Z.to_nat (strlen buf)) buf |};
        {| tx_uart := 2%nat; tx_bytes := ESC :: chars "[K" |};
        {| tx_uart := 2%nat; tx_bytes := ESC :: chars "[u" |}]) ecu_cruising.
Proof.
  apply (X20_dashboard_redraw_is_bracketed 2%nat ecu_cruising); reflexivity.
Defined.

(** What the samples look like once run: the dashboard line, the queued
    command handled by the task, and the boot messages without an image. *)
Example dashboard_line_of_cruising :
  dashboard_text (vehicle ecu_cruising)
  = chars "SPD:  100.0 km/h | RPM:  3000 | TEMP:  50.0 C   ".
Proof. vm_compute. reflexivity. Qed.

Example task_runs_queued_help :
  option_map (fun r => length (wire (snd r))) (CLI_IF_Task 0 NUL ecu_pending)
  = Some 2%nat.
Proof. vm_compute. reflexivity. Qed.

Example boot_without_image_reports_error :
  fst (Boot.main false 4294967295 4294967295 regs_at_reset) = Boot.ErrorLoop /\
  length (snd (Boot.main false 4294967295 4294967295 regs_at_reset)) = 4%nat.
Proof. split; vm_compute; reflexivity. Qed.
